(** * ElastiCache diff customisation and the OAM sink destroy check

    A shallow embedding of

    - [internal/service/elasticache/diff.go]: the six [CustomizeDiff...]
      functions of the ElastiCache cluster and replication group resources;
    - [internal/service/oam/sink_test.go]: [testAccCheckSinkDestroy].

    The functions are glue over three external Go libraries: the Terraform
    plugin SDK ([schema.ResourceDiff]), [hashicorp/go-version] and the AWS
    SDK.  Each library is modelled as far as the embedded functions observe
    it; the functions themselves are transcribed statement by statement. *)

From stdpp Require Import gmap strings list fin_maps.
From Stdlib Require Import ZArith.

Local Open Scope string_scope.
Local Open Scope Z_scope.

#[global] Set Warnings "-clear-no-such-hyp".

(** ** Go values *)

(** The double quote character, for the error texts that quote a word. *)
Definition dquote : string := String (Ascii.ascii_of_nat 34) EmptyString.
Definition quoted (s : string) : string := dquote +:+ s +:+ dquote.

(** [interface{}] restricted to the dynamic types that reach the embedded
    code: the untyped [nil] and the three primitive schema types. *)
Inductive any : Type :=
| vnil
| vbool (b : bool)
| vint (n : Z)
| vstring (s : string).

Global Instance any_eq_dec : EqDecision any.
Proof. solve_decision. Defined.

(** A Go call either returns or panics. *)
Inductive Res (A : Type) : Type :=
| Val (a : A)
| Panic.
Arguments Val {A} a.
Arguments Panic {A}.

(** ** [hashicorp/go-version] *)

Module gversion.

(** A parsed version: its numeric segments ([NewVersion] pads them to at
    least three) and its pre-release tag (empty for a release). *)
Record Version : Type := mkVersion {
  segments : list Z;
  pre : string
}.

Global Instance Version_eq_dec : EqDecision Version.
Proof. solve_decision. Defined.

Definition allZero (segs : list Z) : bool := forallb (Z.eqb 0) segs.

(** The segment loop of [Version.Compare]: the first differing segment
    decides; a version that runs out of segments is smaller unless the
    other one continues with zeros only. *)
Fixpoint compareSegments (self other : list Z) : Z :=
  match self, other with
  | [], [] => 0
  | [], _ :: _ => if allZero other then 0 else -1
  | _ :: _, [] => if allZero self then 0 else 1
  | lhs :: self', rhs :: other' =>
      if lhs =? rhs then compareSegments self' other'
      else if lhs <? rhs then -1 else 1
  end.

Section Compare.

(** [comparePrereleases] orders two non-empty pre-release tags; the
    embedded code never reaches it, so it stays a parameter. *)
Variable comparePrereleases : string -> string -> Z.

(** [Version.Compare]: negative, zero or positive. *)
Definition Compare (v other : Version) : Z :=
  if bool_decide (segments v = segments other) then
    let preSelf := pre v in
    let preOther := pre other in
    if bool_decide (preSelf = "") && bool_decide (preOther = "") then 0
    else if bool_decide (preSelf = "") then 1
    else if bool_decide (preOther = "") then -1
    else comparePrereleases preSelf preOther
  else compareSegments (segments v) (segments other).

Definition LessThan (v o : Version) : bool := Compare v o <? 0.
Definition GreaterThan (v o : Version) : bool := Compare v o >? 0.
Definition Equal (v o : Version) : bool := Compare v o =? 0.

End Compare.

End gversion.

(** ** Go errors *)

(** An argument of a formatting verb. *)
Inductive fmtArg : Type :=
| argString (s : string)
| argVersion (v : gversion.Version).

(** The [error] values the embedded code builds, tests or passes on.
    [fmt.Errorf] is kept symbolic: the format and its arguments, not the
    rendered text.  [*types.ResourceNotFoundException] is the one AWS error
    type the code looks for; [wrapError] is any error that unwraps to
    another one, as the AWS SDK's operation errors do. *)
Inductive error : Type :=
| errors_New (text : string)
| fmt_Errorf (format : string) (args : list fmtArg)
| ResourceNotFoundException (message : string)
| wrapError (msg : string) (err : error).

Global Instance fmtArg_eq_dec : EqDecision fmtArg.
Proof. solve_decision. Defined.
Global Instance error_eq_dec : EqDecision error.
Proof. solve_decision. Defined.

(** ** Terraform plugin SDK: [schema.ResourceDiff] *)

Module schema.

(** [schema.ValueType], the primitive types. *)
Inductive ValueType : Type := TypeBool | TypeInt | TypeString.

Global Instance ValueType_eq_dec : EqDecision ValueType.
Proof. solve_decision. Defined.

(** The Go type a field of a given schema type is read at. *)
Definition GoType (t : ValueType) : Type :=
  match t with
  | TypeBool => bool
  | TypeInt => Z
  | TypeString => string
  end.

(** Boxing a typed value into [interface{}]. *)
Definition box (t : ValueType) : GoType t -> any :=
  match t with
  | TypeBool => vbool
  | TypeInt => vint
  | TypeString => vstring
  end.

(** [ValueType.Zero]. *)
Definition Zero (t : ValueType) : any :=
  match t with
  | TypeBool => vbool false
  | TypeInt => vint 0
  | TypeString => vstring ""
  end.

(** [FieldReadResult]: what a field reader found for one key. *)
Record FieldReadResult (A : Type) : Type := mkRead {
  Value : A;
  Exists : bool;
  Computed : bool
}.
Arguments mkRead {A} _ _ _.
Arguments Value {A} _.
Arguments Exists {A} _.
Arguments Computed {A} _.

(** One key of the resource: its schema type with the reads of the prior
    state and of the planned diff.  The SDK's readers decode every value by
    the schema type of its key, which the dependent typing records. *)
Record Field : Type := mkField {
  Type_ : ValueType;
  Old : FieldReadResult (GoType Type_);
  New : FieldReadResult (GoType Type_)
}.

(** [*schema.ResourceDiff]: the resource id, the keys of the schema with
    their values, and the keys flagged by [ForceNew]. *)
Record ResourceDiff : Type := mkDiff {
  id : string;
  fields : gmap string Field;
  forcedNewKeys : gset string
}.

(** The two read levels the embedded code reaches. *)
Inductive getSource : Type := getSourceState | getSourceDiff.

Record getResult : Type := mkGet {
  gValue : any;
  gExists : bool;
  gComputed : bool;
  gSchema : option ValueType
}.

(** [ResourceDiff.get]: a key outside the schema reads as the zero
    [FieldReadResult] with a nil value and no schema. *)
Definition get (d : ResourceDiff) (key : string) (level : getSource) : getResult :=
  match fields d !! key with
  | None => mkGet vnil false false None
  | Some f =>
      let r := match level with getSourceState => Old f | getSourceDiff => New f end in
      mkGet (box (Type_ f) (Value r)) (Exists r) (Computed r) (Some (Type_ f))
  end.

(** [ResourceDiff.Get]. *)
Definition Get (d : ResourceDiff) (key : string) : any :=
  gValue (get d key getSourceDiff).

(** [ResourceDiff.GetOk]: the value, and whether it exists, is known and
    differs from the zero value of its type. *)
Definition GetOk (d : ResourceDiff) (key : string) : any * bool :=
  let r := get d key getSourceDiff in
  let exists_ := gExists r && negb (gComputed r) in
  let exists_ :=
    if exists_ then
      match gSchema r with
      | Some t => negb (bool_decide (gValue r = Zero t))
      | None => exists_
      end
    else exists_ in
  (gValue r, exists_).

(** [ResourceDiff.Id]. *)
Definition Id (d : ResourceDiff) : string := id d.

(** [ResourceDiff.GetChange]: a value that does not exist reads as nil. *)
Definition GetChange (d : ResourceDiff) (key : string) : any * any :=
  let old := get d key getSourceState in
  let new := get d key getSourceDiff in
  (if gExists old then gValue old else vnil,
   if gExists new then gValue new else vnil).

(** [ResourceDiff.HasChange]. *)
Definition HasChange (d : ResourceDiff) (key : string) : bool :=
  let '(old, new) := GetChange d key in
  negb (bool_decide (old = new)).

(** [ResourceDiff.ForceNew]: refuses a key without a change or outside the
    schema, otherwise flags the key for re-creation. *)
Definition ForceNew (d : ResourceDiff) (key : string) : ResourceDiff * option error :=
  if negb (HasChange d key) then
    (d, Some (fmt_Errorf "ForceNew: No changes for %s" [argString key]))
  else
    match fields d !! key with
    | None => (d, Some (fmt_Errorf "ForceNew: %s is not a valid key" [argString key]))
    | Some _ => (mkDiff (id d) (fields d) ({[key]} ∪ forcedNewKeys d), None)
    end.

End schema.

(** ** Calls on a shared [*schema.ResourceDiff] *)

(** A customise-diff function receives a pointer to the planned diff and
    talks to it through method calls.  The computation below threads the
    diff behind the pointer together with the log of the calls made, and
    stops at a panic. *)
Module diff.

Import schema.

Inductive Call : Type :=
| CallGetOk (key : string)
| CallGet (key : string)
| CallId
| CallHasChange (key : string)
| CallForceNew (key : string).

Global Instance Call_eq_dec : EqDecision Call.
Proof. solve_decision. Defined.

(** The calls that only read the diff. *)
Definition readOnly (c : Call) : bool :=
  match c with
  | CallForceNew _ => false
  | _ => true
  end.

Record World : Type := mkWorld {
  target : ResourceDiff;
  calls : list Call
}.

Definition M (A : Type) : Type := World -> Res A * World.

Definition ret {A} (a : A) : M A := fun w => (Val a, w).

Definition bind {A B} (m : M A) (k : A -> M B) : M B :=
  fun w =>
    match m w with
    | (Val a, w') => k a w'
    | (Panic, w') => (Panic, w')
    end.

Definition panic {A} : M A := fun w => (Panic, w).

(** A method call that reads the diff and is logged. *)
Definition query {A} (c : Call) (f : ResourceDiff -> A) : M A :=
  fun w => (Val (f (target w)), mkWorld (target w) (calls w ++ [c])).

Definition GetOk (key : string) : M (any * bool) :=
  query (CallGetOk key) (fun d => schema.GetOk d key).
Definition Get (key : string) : M any :=
  query (CallGet key) (fun d => schema.Get d key).
Definition Id : M string :=
  query CallId schema.Id.
Definition HasChange (key : string) : M bool :=
  query (CallHasChange key) (fun d => schema.HasChange d key).

(** The one mutating method the embedded code reaches. *)
Definition ForceNew (key : string) : M (option error) :=
  fun w =>
    let '(d', err) := schema.ForceNew (target w) key in
    (Val err, mkWorld d' (calls w ++ [CallForceNew key])).

(** Type assertions [v.(string)], [v.(int)], [v.(bool)]: a value of
    another dynamic type panics. *)
Definition as_string (v : any) : M string :=
  match v with vstring s => ret s | _ => panic end.
Definition as_int (v : any) : M Z :=
  match v with vint n => ret n | _ => panic end.
Definition as_bool (v : any) : M bool :=
  match v with vbool b => ret b | _ => panic end.

(** Go's short-circuit [||] and [&&] with an effectful right operand. *)
Definition orelse (b : bool) (m : M bool) : M bool :=
  if b then ret true else m.
Definition andalso (b : bool) (m : M bool) : M bool :=
  if b then m else ret false.

(** Running a function on a diff, from an empty call log. *)
Definition run {A} (m : M A) (d : ResourceDiff) : Res A * World :=
  m (mkWorld d []).
Definition result {A} (m : M A) (d : ResourceDiff) : Res A := fst (run m d).
Definition after {A} (m : M A) (d : ResourceDiff) : ResourceDiff := target (snd (run m d)).
Definition trace {A} (m : M A) (d : ResourceDiff) : list Call := calls (snd (run m d)).

End diff.

Notation "'let*' x := m 'in' k" := (diff.bind m (fun x => k))
  (at level 10, x pattern, m at level 100, k at level 200).
Infix "|||" := diff.orelse (at level 50, left associativity).
Infix "&&&" := diff.andalso (at level 40, left associativity).

(** ** [internal/service/elasticache/diff.go] *)

Module elasticache.

Import schema.
Import diff (ret, as_string, as_int, as_bool).

(** [elasticache.AZModeCrossAz] of the AWS SDK. *)
Definition AZModeCrossAz : string := "cross-az".

(** Modelled from the spec: the engine names [engineMemcached] and
    [engineRedis] are constants of the package declared outside diff.go;
    the claims and the texts of diff.go name them "memcached" and "redis". *)
Definition engineMemcached : string := "memcached".
Definition engineRedis : string := "redis".

(** [gversion.Must(gversion.NewVersion("1.6.12"))]. *)
Definition minMemcachedTransitEncryptionVersion : gversion.Version :=
  gversion.mkVersion [1; 6; 12] "".

Definition nil_ : option error := None.

(** The context and the provider meta argument of every function are
    unused and left out. *)

Definition CustomizeDiffValidateClusterAZMode : diff.M (option error) :=
  let* (v, ok) := diff.GetOk "az_mode" in
  let* c := negb ok ||| (let* s := as_string v in ret (negb (String.eqb s AZModeCrossAz))) in
  if c then ret nil_ else
  let* (v, ok) := diff.GetOk "num_cache_nodes" in
  let* c := negb ok ||| (let* n := as_int v in ret (negb (n =? 1))) in
  if c then ret nil_ else
  ret (Some (errors_New
    ("az_mode " +:+ quoted "cross-az" +:+ " is not supported with num_cache_nodes = 1"))).

Definition CustomizeDiffValidateClusterNumCacheNodes : diff.M (option error) :=
  let* (v, ok) := diff.GetOk "engine" in
  let* c := negb ok ||| (let* s := as_string v in ret (String.eqb s engineMemcached)) in
  if c then ret nil_ else
  let* (v, ok) := diff.GetOk "num_cache_nodes" in
  let* c := negb ok ||| (let* n := as_int v in ret (n =? 1)) in
  if c then ret nil_ else
  ret (Some (errors_New
    ("engine " +:+ quoted "redis" +:+ " does not support num_cache_nodes > 1"))).

Definition CustomizeDiffClusterMemcachedNodeType : diff.M (option error) :=
  let* e := (let* i := diff.Id in ret (String.eqb i "")) in
  let* c := e ||| (let* h := diff.HasChange "node_type" in ret (negb h)) in
  if c then ret nil_ else
  let* (v, ok) := diff.GetOk "engine" in
  let* c := negb ok ||| (let* s := as_string v in ret (String.eqb s engineRedis)) in
  if c then ret nil_ else
  diff.ForceNew "node_type".

Definition CustomizeDiffValidateClusterMemcachedSnapshotIdentifier : diff.M (option error) :=
  let* (v, ok) := diff.GetOk "engine" in
  let* c := negb ok ||| (let* s := as_string v in ret (String.eqb s engineRedis)) in
  if c then ret nil_ else
  let* (_, ok) := diff.GetOk "final_snapshot_identifier" in
  if negb ok then ret nil_ else
  ret (Some (errors_New
    ("engine " +:+ quoted "memcached" +:+ " does not support final_snapshot_identifier"))).

Definition CustomizeDiffValidateReplicationGroupAutomaticFailover : diff.M (option error) :=
  let* v := (let* x := diff.Get "multi_az_enabled" in as_bool x) in
  if negb v then ret nil_ else
  let* v := (let* x := diff.Get "automatic_failover_enabled" in as_bool x) in
  if negb v then
    ret (Some (errors_New "automatic_failover_enabled must be true if multi_az_enabled is true"))
  else ret nil_.

Section TransitEncryption.

(** [normalizeEngineVersion] is declared outside diff.go and stays a
    parameter: like [gversion.NewVersion], which it wraps, it yields a
    version or an error. *)
Variable normalizeEngineVersion : string -> gversion.Version + error.
Variable comparePrereleases : string -> string -> Z.

Definition CustomizeDiffValidateTransitEncryptionEnabled : diff.M (option error) :=
  let* (v, ok) := diff.GetOk "transit_encryption_enabled" in
  let* c := ok &&& as_bool v in
  if c then
    let* engine := (let* x := diff.Get "engine" in as_string x) in
    if String.eqb engine engineRedis then
      ret (Some (errors_New "aws_elasticache_cluster does not support transit encryption using the redis engine, use aws_elasticache_replication_group instead"))
    else
    let* (engineVersion, ok) := diff.GetOk "engine_version" in
    if negb ok then ret nil_ else
    let* s := as_string engineVersion in
    match normalizeEngineVersion s with
    | inr err => ret (Some err)
    | inl version =>
        if gversion.LessThan comparePrereleases version minMemcachedTransitEncryptionVersion
        then ret (Some (fmt_Errorf
               "Transit encryption is not supported for memcached version %v"
               [argVersion version]))
        else ret nil_
    end
  else ret nil_.

End TransitEncryption.

End elasticache.

(** ** [internal/service/oam/sink_test.go] *)

Module oam_test.

(** [terraform.InstanceState], [terraform.ResourceState],
    [terraform.ModuleState] and [terraform.State] as far as the destroy
    check reads them.  A state always has its root module and a resource
    its primary instance. *)
Record InstanceState : Type := mkInstance { ID : string }.

Record ResourceState : Type := mkResource {
  Type_ : string;
  Primary : InstanceState
}.

Record ModuleState : Type := mkModule {
  Resources : gmap string ResourceState
}.

Record State : Type := mkState { RootModule : ModuleState }.

(** [oam.GetSinkInput]. *)
Record GetSinkInput : Type := mkGetSinkInput { Identifier : string }.

Global Instance GetSinkInput_eq_dec : EqDecision GetSinkInput.
Proof. solve_decision. Defined.

(** [errors.As(err, &nfe)] with [nfe] a [*types.ResourceNotFoundException]:
    whether an error of that type is on the chain of [err]. *)
Fixpoint errors_As_ResourceNotFoundException (err : error) : bool :=
  match err with
  | ResourceNotFoundException _ => true
  | wrapError _ cause => errors_As_ResourceNotFoundException cause
  | _ => false
  end.

Section Destroy.

(** [Resources] is a Go map, and [range] over a map visits every entry
    once in an order the language leaves open: [range] is the order the
    runtime takes. *)
Variable range : gmap string ResourceState → list (string * ResourceState).

(** The error of [conn.GetSink] for an input, nil when the sink is found;
    the output of the call is discarded by the check. *)
Variable GetSink : GetSinkInput → option error.

(** [create.Error] and the three names passed to it are declared outside
    sink_test.go and stay parameters. *)
Variable create_Error : string → string → string → string → error → error.
Variable names_ObservabilityAccessManager : string.
Variable create_ErrActionCheckingDestroyed : string.
Variable tfoam_ResNameSink : string.

(** The loop body over the entries still to visit: the error returned and
    the [GetSink] calls made. *)
Fixpoint rangeResources (entries : list (string * ResourceState))
  : option error * list GetSinkInput :=
  match entries with
  | [] => (None, [])
  | (_, rs) :: rest =>
      if negb (String.eqb (Type_ rs) "aws_oam_sink") then rangeResources rest
      else
        let input := mkGetSinkInput (ID (Primary rs)) in
        match GetSink input with
        | Some err =>
            if errors_As_ResourceNotFoundException err then (None, [input])
            else (Some err, [input])
        | None =>
            (Some (create_Error names_ObservabilityAccessManager
                     create_ErrActionCheckingDestroyed tfoam_ResNameSink
                     (ID (Primary rs)) (errors_New "not destroyed")),
             [input])
        end
  end.

Definition testAccCheckSinkDestroy (s : State) : option error * list GetSinkInput :=
  rangeResources (range (Resources (RootModule s))).

End Destroy.

(** [oam.GetSinkOutput]: the fields of the AWS SDK's structure apart from
    the result metadata; a nil pointer is [None]. *)
Record GetSinkOutput : Type := mkGetSinkOutput {
  Arn : option string;
  Id : option string;
  Name : option string;
  Tags : gmap string string
}.

Section Exists.

(** [conn.GetSink]: the output of a call that succeeds, the error of one
    that fails. *)
Variable GetSink : GetSinkInput → GetSinkOutput + error.

Variable create_Error : string → string → string → string → error → error.
Variable names_ObservabilityAccessManager : string.
Variable create_ErrActionCheckingExistence : string.
Variable tfoam_ResNameSink : string.

(** The check [testAccCheckSinkExists(name, sink)] returns, run on a
    state.  [sink] is the value behind the pointer when the check starts;
    the result is the error returned, the value behind the pointer
    afterwards and the [GetSink] calls made. *)
Definition testAccCheckSinkExists (name : string) (sink : GetSinkOutput) (s : State)
  : option error * GetSinkOutput * list GetSinkInput :=
  match Resources (RootModule s) !! name with
  | None =>
      (Some (create_Error names_ObservabilityAccessManager
               create_ErrActionCheckingExistence tfoam_ResNameSink
               name (errors_New "not found")),
       sink, [])
  | Some rs =>
      if String.eqb (ID (Primary rs)) "" then
        (Some (create_Error names_ObservabilityAccessManager
                 create_ErrActionCheckingExistence tfoam_ResNameSink
                 name (errors_New "not set")),
         sink, [])
      else
        let input := mkGetSinkInput (ID (Primary rs)) in
        match GetSink input with
        | inr err =>
            (Some (create_Error names_ObservabilityAccessManager
                     create_ErrActionCheckingExistence tfoam_ResNameSink
                     (ID (Primary rs)) err),
             sink, [input])
        | inl resp => (None, resp, [input])
        end
  end.

End Exists.

End oam_test.

(** ** [aws/resource_aws_default_route_table_test.go] *)

Module aws_test.

(** The Terraform state as far as the two helpers of this file read it:
    here the primary instance is read for its attributes as well.  As
    before, a state has its root module and a resource its primary
    instance. *)
Record InstanceState : Type := mkInstance {
  ID : string;
  Attributes : gmap string string
}.

Record ResourceState : Type := mkResource {
  Type_ : string;
  Primary : InstanceState
}.

Record ModuleState : Type := mkModule {
  Resources : gmap string ResourceState
}.

Record State : Type := mkState { RootModule : ModuleState }.

(** [ec2.DescribeRouteTablesInput] with the one field the check fills,
    [ec2.RouteTable] and [ec2.DescribeRouteTablesOutput]. *)
Record DescribeRouteTablesInput : Type := mkDescribeRouteTablesInput {
  RouteTableIds : list string
}.

Record RouteTable : Type := mkRouteTable {
  RouteTableId : option string;
  VpcId : option string
}.

Record DescribeRouteTablesOutput : Type := mkDescribeRouteTablesOutput {
  RouteTables : list RouteTable
}.

Global Instance DescribeRouteTablesInput_eq_dec : EqDecision DescribeRouteTablesInput.
Proof. solve_decision. Defined.

Section Destroy.

(** The order the runtime takes over the map of resources. *)
Variable range : gmap string ResourceState → list (string * ResourceState).

(** [conn.DescribeRouteTables]: the output of a call that succeeds, the
    error of one that fails. *)
Variable DescribeRouteTables :
  DescribeRouteTablesInput → DescribeRouteTablesOutput + error.

(** [isAWSErr(err, code, message)] is declared outside this file and stays
    a parameter. *)
Variable isAWSErr : error → string → string → bool.

(** The loop over the entries still to visit: the error returned and the
    [DescribeRouteTables] calls made. *)
Fixpoint rangeResources (entries : list (string * ResourceState))
  : option error * list DescribeRouteTablesInput :=
  match entries with
  | [] => (None, [])
  | (_, rs) :: rest =>
      if negb (String.eqb (Type_ rs) "aws_default_route_table") then rangeResources rest
      else
        let input := mkDescribeRouteTablesInput [ID (Primary rs)] in
        match DescribeRouteTables input with
        | inl resp =>
            if (0 <? length (RouteTables resp))%nat
            then (Some (fmt_Errorf "still exist." []), [input])
            else (None, [input])
        | inr err =>
            if negb (isAWSErr err "InvalidRouteTableID.NotFound" "")
            then (Some err, [input])
            else
              let '(result, calls) := rangeResources rest in
              (result, input :: calls)
        end
  end.

Definition testAccCheckDefaultRouteTableDestroy (s : State)
  : option error * list DescribeRouteTablesInput :=
  rangeResources (range (Resources (RootModule s))).

End Destroy.

(** The function [testAccAWSDefaultRouteTableImportStateIdFunc(resourceName)]
    returns, run on a state; a key missing from [Attributes] reads as the
    empty string. *)
Definition testAccAWSDefaultRouteTableImportStateIdFunc (resourceName : string)
    (s : State) : string * option error :=
  match Resources (RootModule s) !! resourceName with
  | None => ("", Some (fmt_Errorf "Not found: %s" [argString resourceName]))
  | Some rs => (default "" (Attributes (Primary rs) !! "vpc_id"), None)
  end.

End aws_test.

(** * Specification vocabulary *)

Module spec.

Import schema.

(** The schema declares [key] with type [t]. *)
Definition HasType (d : ResourceDiff) (key : string) (t : ValueType) : Prop :=
  Type_ <$> fields d !! key = Some t.

(** The planned diff sets [key] to [v]: the value exists, is known at plan
    time, and is not the zero value of the key's type. *)
Definition IsSet (d : ResourceDiff) (key : string) (v : any) : Prop :=
  ∃ f, fields d !! key = Some f
       ∧ Exists (New f) = true
       ∧ Computed (New f) = false
       ∧ box (Type_ f) (Value (New f)) = v
       ∧ v ≠ Zero (Type_ f).

Definition Unset (d : ResourceDiff) (key : string) : Prop := ∀ v, ¬ IsSet d key v.

(** The planned value of [key], set or not, zero when absent. *)
Definition Reads (d : ResourceDiff) (key : string) (v : any) : Prop :=
  ∃ f, fields d !! key = Some f ∧ box (Type_ f) (Value (New f)) = v.

(** The outcome is a non-nil error. *)
Definition IsError (r : Res (option error)) : Prop := ∃ e, r = Val (Some e).

(** The run returns (nil or an error) instead of panicking. *)
Definition Returns (m : diff.M (option error)) (d : ResourceDiff) : Prop :=
  ∃ e : option error, diff.result m d = Val e.

(** The field types the schemas of the two resources declare for the keys
    whose values the functions assert. *)
Definition DeclaredTypes (d : ResourceDiff) : Prop :=
  HasType d "az_mode" TypeString
  ∧ HasType d "engine" TypeString
  ∧ HasType d "engine_version" TypeString
  ∧ HasType d "final_snapshot_identifier" TypeString
  ∧ HasType d "num_cache_nodes" TypeInt
  ∧ HasType d "multi_az_enabled" TypeBool
  ∧ HasType d "automatic_failover_enabled" TypeBool
  ∧ HasType d "transit_encryption_enabled" TypeBool.

(** The errors diff.go builds. *)
Definition errAZMode : error :=
  errors_New ("az_mode " +:+ quoted "cross-az" +:+ " is not supported with num_cache_nodes = 1").

Definition errNumCacheNodes : error :=
  errors_New ("engine " +:+ quoted "redis" +:+ " does not support num_cache_nodes > 1").

Definition errSnapshotIdentifier : error :=
  errors_New ("engine " +:+ quoted "memcached" +:+ " does not support final_snapshot_identifier").

Definition errAutomaticFailover : error :=
  errors_New "automatic_failover_enabled must be true if multi_az_enabled is true".

Definition errTransitRedis : error :=
  errors_New "aws_elasticache_cluster does not support transit encryption using the redis engine, use aws_elasticache_replication_group instead".

Definition errTransitVersion (v : gversion.Version) : error :=
  fmt_Errorf "Transit encryption is not supported for memcached version %v" [argVersion v].

(** When the two validators with an existential condition reject. *)
Definition rejectsNumCacheNodes (d : ResourceDiff) : Prop :=
  ∃ s n, IsSet d "engine" (vstring s) ∧ s ≠ "" ∧ s ≠ "memcached"
         ∧ IsSet d "num_cache_nodes" (vint n) ∧ n ≠ 0 ∧ n ≠ 1.

Definition rejectsSnapshotIdentifier (d : ResourceDiff) : Prop :=
  (∃ s, IsSet d "engine" (vstring s) ∧ s ≠ "" ∧ s ≠ "redis")
  ∧ (∃ v, IsSet d "final_snapshot_identifier" v).

(** When [CustomizeDiffClusterMemcachedNodeType] forces re-creation. *)
Definition forcesNewNodeType (d : ResourceDiff) : Prop :=
  Id d ≠ "" ∧ HasChange d "node_type" = true
  ∧ ∃ s, IsSet d "engine" (vstring s) ∧ s ≠ "" ∧ s ≠ "redis".

(** The version check made once encryption is on and the engine is not
    redis; a set engine_version that is no string panics. *)
Definition versionCheck (normalizeEngineVersion : string → gversion.Version + error)
    (cmp : string → string → Z) (d : ResourceDiff) : Res (option error) :=
  if snd (GetOk d "engine_version") then
    match fst (GetOk d "engine_version") with
    | vstring s =>
        match normalizeEngineVersion s with
        | inr err => Val (Some err)
        | inl v =>
            if gversion.LessThan cmp v elasticache.minMemcachedTransitEncryptionVersion
            then Val (Some (errTransitVersion v))
            else Val None
        end
    | _ => Panic
    end
  else Val None.

(** The outcome of reading a key through [GetOk] and asserting its type:
    nil when the key is not set, a panic when it is set to a value of
    another type. *)
Definition ifSetString (r : any * bool) (k : string → Res (option error))
  : Res (option error) :=
  if snd r then match fst r with vstring s => k s | _ => Panic end else Val None.

Definition ifSetInt (r : any * bool) (k : Z → Res (option error))
  : Res (option error) :=
  if snd r then match fst r with vint n => k n | _ => Panic end else Val None.

(** The outcome of reading a key through [Get] and asserting its type. *)
Definition asString (v : any) (k : string → Res (option error)) : Res (option error) :=
  match v with vstring s => k s | _ => Panic end.

Definition asBool (v : any) (k : bool → Res (option error)) : Res (option error) :=
  match v with vbool b => k b | _ => Panic end.

(** A computation is confined to the calls [allowed] when every call it
    makes is allowed, whatever the outcome; and a run made of read-only
    calls leaves the diff behind the pointer as it was. *)
Definition Confined (allowed : diff.Call → bool) {A} (m : diff.M A) : Prop :=
  ∀ w, ∃ cs : list diff.Call,
    diff.calls (snd (m w)) = (diff.calls w ++ cs)%list
    ∧ forallb allowed cs = true
    ∧ (forallb diff.readOnly cs = true → diff.target (snd (m w)) = diff.target w).

(** The calls open to [CustomizeDiffClusterMemcachedNodeType]. *)
Definition readOrForceNodeType (c : diff.Call) : bool :=
  diff.readOnly c || bool_decide (c = diff.CallForceNew "node_type").

(** [range] takes every entry of the map once. *)
Definition VisitsAll
    (range : gmap string oam_test.ResourceState → list (string * oam_test.ResourceState))
  : Prop :=
  ∀ m, range m ≡ₚ map_to_list m.

Definition isSink (rs : oam_test.ResourceState) : bool :=
  String.eqb (oam_test.Type_ rs) "aws_oam_sink".

(** What the destroy check answers for the sink it asks about. *)
Definition verdict (GetSink : oam_test.GetSinkInput → option error)
    (create_Error : string → string → string → string → error → error)
    (service action resource : string) (rs : oam_test.ResourceState)
  : option error * list oam_test.GetSinkInput :=
  let input := oam_test.mkGetSinkInput (oam_test.ID (oam_test.Primary rs)) in
  (match GetSink input with
   | Some err =>
       if oam_test.errors_As_ResourceNotFoundException err then None else Some err
   | None => Some (create_Error service action resource
                     (oam_test.ID (oam_test.Primary rs)) (errors_New "not destroyed"))
   end, [input]).

(** The [GetSink] call for a resource, and the error of a call as the
    destroy check sees it, with the output dropped. *)
Definition sinkInput (rs : oam_test.ResourceState) : oam_test.GetSinkInput :=
  oam_test.mkGetSinkInput (oam_test.ID (oam_test.Primary rs)).

Definition errorOnly {A} (r : A + error) : option error :=
  match r with inl _ => None | inr err => Some err end.

(** The service answers for a sink with an error that the destroy check
    takes for a deleted sink. *)
Definition sinkGone (GetSink : oam_test.GetSinkInput → option error)
    (rs : oam_test.ResourceState) : Prop :=
  ∃ err, GetSink (sinkInput rs) = Some err
         ∧ oam_test.errors_As_ResourceNotFoundException err = true.

(** [range] over the resources of the route table tests takes every entry
    once. *)
Definition VisitsEvery
    (range : gmap string aws_test.ResourceState → list (string * aws_test.ResourceState))
  : Prop :=
  ∀ m, range m ≡ₚ map_to_list m.

Definition isDefaultRouteTable (rs : aws_test.ResourceState) : bool :=
  String.eqb (aws_test.Type_ rs) "aws_default_route_table".

(** The [DescribeRouteTables] call for a resource. *)
Definition describeInput (rs : aws_test.ResourceState) : aws_test.DescribeRouteTablesInput :=
  aws_test.mkDescribeRouteTablesInput [aws_test.ID (aws_test.Primary rs)].

Definition errStillExist : error := fmt_Errorf "still exist." [].

(** The service answers for a resource with the error the destroy check
    takes for a deleted route table. *)
Definition answersNotFound
    (DescribeRouteTables :
       aws_test.DescribeRouteTablesInput → aws_test.DescribeRouteTablesOutput + error)
    (isAWSErr : error → string → string → bool)
    (rs : aws_test.ResourceState) : bool :=
  match DescribeRouteTables (describeInput rs) with
  | inr err => isAWSErr err "InvalidRouteTableID.NotFound" ""
  | inl _ => false
  end.

(** The entries after which the loop goes on: resources of another type
    and default route tables answered as not found. *)
Definition passedOver
    (DescribeRouteTables :
       aws_test.DescribeRouteTablesInput → aws_test.DescribeRouteTablesOutput + error)
    (isAWSErr : error → string → string → bool)
    (rs : aws_test.ResourceState) : bool :=
  negb (isDefaultRouteTable rs) || answersNotFound DescribeRouteTables isAWSErr rs.

(** The calls for the default route tables among some entries, in order. *)
Definition describeInputs (entries : list (string * aws_test.ResourceState))
  : list aws_test.DescribeRouteTablesInput :=
  describeInput <$> filter (λ rs, isDefaultRouteTable rs = true) entries.*2.

End spec.

(** * Sample inputs *)

Module examples.

Import schema.

Definition zeroValue (t : ValueType) : GoType t :=
  match t with
  | TypeBool => false
  | TypeInt => 0
  | TypeString => ""
  end.

(** A key of the schema the configuration leaves out. *)
Definition absent (t : ValueType) : Field :=
  mkField t (mkRead (zeroValue t) false false) (mkRead (zeroValue t) false false).

(** A key planned for a new resource. *)
Definition planned (t : ValueType) (v : GoType t) : Field :=
  mkField t (mkRead (zeroValue t) false false) (mkRead v true false).

(** A key whose planned value replaces the one in the state. *)
Definition modified (t : ValueType) (old new : GoType t) : Field :=
  mkField t (mkRead old true false) (mkRead new true false).

(** The keys the functions read, none of them configured. *)
Definition emptyFields : gmap string Field :=
  list_to_map
    [("az_mode", absent TypeString);
     ("engine", absent TypeString);
     ("engine_version", absent TypeString);
     ("final_snapshot_identifier", absent TypeString);
     ("node_type", absent TypeString);
     ("num_cache_nodes", absent TypeInt);
     ("multi_az_enabled", absent TypeBool);
     ("automatic_failover_enabled", absent TypeBool);
     ("transit_encryption_enabled", absent TypeBool)].

Definition configure (i : string) (settings : list (string * Field)) : ResourceDiff :=
  mkDiff i (list_to_map settings ∪ emptyFields) ∅.

Definition nothingSet : ResourceDiff := configure "" [].

Definition redisTwoNodes : ResourceDiff :=
  configure "" [("engine", planned TypeString "redis");
                ("num_cache_nodes", planned TypeInt 2)].

Definition crossAzOneNode : ResourceDiff :=
  configure "" [("az_mode", planned TypeString "cross-az");
                ("num_cache_nodes", planned TypeInt 1)].

Definition memcachedWithSnapshot : ResourceDiff :=
  configure "" [("engine", planned TypeString "memcached");
                ("final_snapshot_identifier", planned TypeString "final")].

Definition multiAzNoFailover : ResourceDiff :=
  configure "" [("multi_az_enabled", planned TypeBool true)].

Definition memcachedResized : ResourceDiff :=
  configure "cluster-1"
    [("engine", modified TypeString "memcached" "memcached");
     ("node_type", modified TypeString "cache.t3.micro" "cache.t3.small")].

Definition redisEncrypted : ResourceDiff :=
  configure "" [("engine", planned TypeString "redis");
                ("transit_encryption_enabled", planned TypeBool true)].

Definition memcachedEncrypted (version : string) : ResourceDiff :=
  configure "" [("engine", planned TypeString "memcached");
                ("engine_version", planned TypeString version);
                ("transit_encryption_enabled", planned TypeBool true)].

(** An engine declared with the wrong type. *)
Definition engineAsInt : ResourceDiff :=
  configure "" [("engine", planned TypeInt 5)].

(** A stand-in for [normalizeEngineVersion] on a few version strings. *)
Definition sampleNormalize (s : string) : gversion.Version + error :=
  if String.eqb s "1.6.11" then inl (gversion.mkVersion [1; 6; 11] "")
  else if String.eqb s "1.6.12" then inl (gversion.mkVersion [1; 6; 12] "")
  else if String.eqb s "1.6.17" then inl (gversion.mkVersion [1; 6; 17] "")
  else inr (fmt_Errorf "Malformed version: %s" [argString s]).

Definition samplePrereleases (a b : string) : Z := 0.

(** A state with two sinks and a resource of another type. *)
Definition sinkA : oam_test.ResourceState :=
  oam_test.mkResource "aws_oam_sink" (oam_test.mkInstance "sink-a").
Definition sinkB : oam_test.ResourceState :=
  oam_test.mkResource "aws_oam_sink" (oam_test.mkInstance "sink-b").
Definition topic : oam_test.ResourceState :=
  oam_test.mkResource "aws_sns_topic" (oam_test.mkInstance "topic-1").

Definition twoSinks : oam_test.State :=
  oam_test.mkState (oam_test.mkModule
    (list_to_map [("aws_oam_sink.a", sinkA); ("aws_oam_sink.b", sinkB);
                  ("aws_sns_topic.t", topic)])).

(** [sink-a] is gone, [sink-b] is still there. *)
Definition onlyBLeft (input : oam_test.GetSinkInput) : option error :=
  if String.eqb (oam_test.Identifier input) "sink-a"
  then Some (wrapError "operation error OAM: GetSink"
               (ResourceNotFoundException "sink-a"))
  else None.

(** Two orders [range] may take: that of [map_to_list] and its reverse. *)
Definition forwards (m : gmap string oam_test.ResourceState)
  : list (string * oam_test.ResourceState) := map_to_list m.
Definition backwards (m : gmap string oam_test.ResourceState)
  : list (string * oam_test.ResourceState) := reverse (map_to_list m).

Definition sampleCreateError (service action resource i : string) (cause : error) : error :=
  wrapError (action +:+ " " +:+ service +:+ " " +:+ resource +:+ " (" +:+ i +:+ ")") cause.

(** Diffs shaped like those of the two resources.  Of the keys the
    functions read, a cluster diff leaves out multi_az_enabled and
    automatic_failover_enabled, and a replication group diff leaves out
    az_mode and num_cache_nodes. *)
Definition clusterFields : gmap string Field :=
  list_to_map
    [("az_mode", absent TypeString);
     ("engine", absent TypeString);
     ("engine_version", absent TypeString);
     ("final_snapshot_identifier", absent TypeString);
     ("node_type", absent TypeString);
     ("num_cache_nodes", absent TypeInt);
     ("transit_encryption_enabled", absent TypeBool)].

Definition replicationGroupFields : gmap string Field :=
  list_to_map
    [("automatic_failover_enabled", absent TypeBool);
     ("engine", absent TypeString);
     ("engine_version", absent TypeString);
     ("final_snapshot_identifier", absent TypeString);
     ("multi_az_enabled", absent TypeBool);
     ("node_type", absent TypeString);
     ("transit_encryption_enabled", absent TypeBool)].

Definition cluster (i : string) (settings : list (string * Field)) : ResourceDiff :=
  mkDiff i (list_to_map settings ∪ clusterFields) ∅.

Definition replicationGroup (i : string) (settings : list (string * Field))
  : ResourceDiff :=
  mkDiff i (list_to_map settings ∪ replicationGroupFields) ∅.

Definition clusterCrossAzOneNode : ResourceDiff :=
  cluster "" [("az_mode", planned TypeString "cross-az");
              ("num_cache_nodes", planned TypeInt 1)].

Definition clusterRedisTwoNodes : ResourceDiff :=
  cluster "" [("engine", planned TypeString "redis");
              ("num_cache_nodes", planned TypeInt 2)].

Definition clusterMemcachedResized : ResourceDiff :=
  cluster "cluster-1"
    [("engine", modified TypeString "memcached" "memcached");
     ("node_type", modified TypeString "cache.t3.micro" "cache.t3.small")].

Definition clusterMemcachedWithSnapshot : ResourceDiff :=
  cluster "" [("engine", planned TypeString "memcached");
              ("final_snapshot_identifier", planned TypeString "final")].

Definition clusterMemcachedEncrypted : ResourceDiff :=
  cluster "" [("engine", planned TypeString "memcached");
              ("engine_version", planned TypeString "1.6.17");
              ("transit_encryption_enabled", planned TypeBool true)].

Definition replicationGroupMultiAz : ResourceDiff :=
  replicationGroup "" [("multi_az_enabled", planned TypeBool true);
                       ("automatic_failover_enabled", planned TypeBool true)].

(** Cross-az asked for a redis cluster of two nodes. *)
Definition crossAzRedis : ResourceDiff :=
  configure "" [("az_mode", planned TypeString "cross-az");
                ("engine", planned TypeString "redis");
                ("num_cache_nodes", planned TypeInt 2)].

(** A state with one sink beside a resource of another type. *)
Definition oneSink : oam_test.State :=
  oam_test.mkState (oam_test.mkModule
    (list_to_map [("aws_oam_sink.b", sinkB); ("aws_sns_topic.t", topic)])).

(** A resource whose id is not set yet. *)
Definition unsetSink : oam_test.State :=
  oam_test.mkState (oam_test.mkModule
    (list_to_map [("aws_oam_sink.b",
                   oam_test.mkResource "aws_oam_sink" (oam_test.mkInstance ""))])).

Definition sinkBOutput : oam_test.GetSinkOutput :=
  oam_test.mkGetSinkOutput
    (Some "arn:aws:oam:us-west-2:123456789012:sink/sink-b")
    (Some "sink-b") (Some "tf-acc-test") ∅.

Definition noOutput : oam_test.GetSinkOutput :=
  oam_test.mkGetSinkOutput None None None ∅.

(** The service with [sink-b] alone: any other identifier is not found. *)
Definition sinkService (input : oam_test.GetSinkInput)
  : oam_test.GetSinkOutput + error :=
  if String.eqb (oam_test.Identifier input) "sink-b" then inl sinkBOutput
  else inr (wrapError "operation error OAM: GetSink"
              (ResourceNotFoundException (oam_test.Identifier input))).

(** A state with two default route tables and their VPC. *)
Definition tableA : aws_test.ResourceState :=
  aws_test.mkResource "aws_default_route_table"
    (aws_test.mkInstance "rtb-a" (list_to_map [("vpc_id", "vpc-1")])).
Definition tableB : aws_test.ResourceState :=
  aws_test.mkResource "aws_default_route_table"
    (aws_test.mkInstance "rtb-b" ∅).
Definition vpc : aws_test.ResourceState :=
  aws_test.mkResource "aws_vpc" (aws_test.mkInstance "vpc-1" ∅).

Definition twoTables : aws_test.State :=
  aws_test.mkState (aws_test.mkModule
    (list_to_map [("aws_default_route_table.a", tableA);
                  ("aws_default_route_table.b", tableB);
                  ("aws_vpc.v", vpc)])).

(** A stand-in for [isAWSErr]: an AWS error is written as its code
    wrapping the cause, and every message contains the empty one. *)
Definition sampleIsAWSErr (err : error) (code message : string) : bool :=
  match err with
  | wrapError c _ => String.eqb c code && String.eqb message ""
  | _ => false
  end.

Definition notFoundError : error :=
  wrapError "InvalidRouteTableID.NotFound" (errors_New "The route table ID does not exist").

(** [rtb-a] is gone, [rtb-b] is still there. *)
Definition onlyTableBLeft (input : aws_test.DescribeRouteTablesInput)
  : aws_test.DescribeRouteTablesOutput + error :=
  if bool_decide (aws_test.RouteTableIds input = ["rtb-b"])
  then inl (aws_test.mkDescribeRouteTablesOutput
              [aws_test.mkRouteTable (Some "rtb-b") (Some "vpc-1")])
  else inr notFoundError.

(** Every route table is gone. *)
Definition noTableLeft (input : aws_test.DescribeRouteTablesInput)
  : aws_test.DescribeRouteTablesOutput + error :=
  inr notFoundError.

Definition tablesForwards (m : gmap string aws_test.ResourceState)
  : list (string * aws_test.ResourceState) := map_to_list m.
Definition tablesBackwards (m : gmap string aws_test.ResourceState)
  : list (string * aws_test.ResourceState) := reverse (map_to_list m).

End examples.
(** * Facts about the diff readers *)

Module facts.

Import schema spec.

Lemma box_inv_string t x s : box t x = vstring s → t = TypeString.
Proof. destruct t; simpl; congruence. Qed.

Lemma box_inv_int t x n : box t x = vint n → t = TypeInt.
Proof. destruct t; simpl; congruence. Qed.

Lemma box_inv_bool t x b : box t x = vbool b → t = TypeBool.
Proof. destruct t; simpl; congruence. Qed.

Lemma GetOk_IsSet d key v : GetOk d key = (v, true) ↔ IsSet d key v.
Proof.
  unfold GetOk, get, IsSet. split.
  - destruct (fields d !! key) as [f|] eqn:Hf; simpl; [|congruence].
    destruct (Exists (New f)) eqn:He, (Computed (New f)) eqn:Hc; simpl;
      try congruence.
    intros [= Hv Hz]. exists f. repeat split; try done.
    rewrite <- Hv. apply negb_true_iff, bool_decide_eq_false in Hz. done.
  - intros (f & -> & He & Hc & Hv & Hz). simpl. rewrite He, Hc. simpl.
    rewrite Hv. f_equal. apply negb_true_iff, bool_decide_eq_false. done.
Qed.

Lemma GetOk_Unset d key v : GetOk d key = (v, false) → Unset d key.
Proof.
  intros H v' H'. apply GetOk_IsSet in H'. congruence.
Qed.

Lemma IsSet_fun d key v v' : IsSet d key v → IsSet d key v' → v = v'.
Proof. intros H H'. apply GetOk_IsSet in H, H'. congruence. Qed.

Lemma IsSet_string_nonempty d key s : IsSet d key (vstring s) → s ≠ "".
Proof.
  intros (f & _ & _ & _ & Hv & Hz) ->.
  apply box_inv_string in Hv as Ht. rewrite Ht in Hz. done.
Qed.

Lemma IsSet_int_nonzero d key n : IsSet d key (vint n) → n ≠ 0.
Proof.
  intros (f & _ & _ & _ & Hv & Hz) ->.
  apply box_inv_int in Hv as Ht. rewrite Ht in Hz. done.
Qed.

Lemma IsSet_bool_true d key b : IsSet d key (vbool b) → b = true.
Proof.
  intros (f & _ & _ & _ & Hv & Hz).
  apply box_inv_bool in Hv as Ht. rewrite Ht in Hz.
  destruct b; [done|]. by destruct Hz.
Qed.

Lemma Get_Reads d key v : v ≠ vnil → Get d key = v ↔ Reads d key v.
Proof.
  unfold Get, get, Reads. intros Hv.
  destruct (fields d !! key) as [f|]; simpl.
  - split; [intros <-; eauto|]. by intros (f' & [= <-] & <-).
  - split; [congruence|]. by intros (f' & ? & _).
Qed.

(** Under a declared type, both readers yield a value of that type. *)
Lemma GetOk_typed d key t :
  HasType d key t → ∃ x ok, GetOk d key = (box t x, ok).
Proof.
  unfold HasType, GetOk, get.
  destruct (fields d !! key) as [f|]; simpl; [|done].
  intros [= <-]. eauto.
Qed.

Lemma Get_typed d key t : HasType d key t → ∃ x, Get d key = box t x.
Proof.
  unfold HasType, Get, get.
  destruct (fields d !! key) as [f|]; simpl; [|done].
  intros [= <-]. eauto.
Qed.

Lemma GetOk_string d key :
  HasType d key TypeString → ∃ s ok, GetOk d key = (vstring s, ok).
Proof. apply (GetOk_typed d key TypeString). Qed.

Lemma GetOk_int d key :
  HasType d key TypeInt → ∃ n ok, GetOk d key = (vint n, ok).
Proof. apply (GetOk_typed d key TypeInt). Qed.

Lemma GetOk_bool d key :
  HasType d key TypeBool → ∃ b ok, GetOk d key = (vbool b, ok).
Proof. apply (GetOk_typed d key TypeBool). Qed.

Lemma Get_string d key : HasType d key TypeString → ∃ s, Get d key = vstring s.
Proof. apply (Get_typed d key TypeString). Qed.

Lemma Get_bool d key : HasType d key TypeBool → ∃ b, Get d key = vbool b.
Proof. apply (Get_typed d key TypeBool). Qed.

End facts.

(** ** The cluster validators *)

Module elasticache_spec.

Import schema spec facts elasticache.

(** Stepping through a function: the diff readers stay folded. *)
#[local] Arguments schema.GetOk : simpl never.
#[local] Arguments schema.Get : simpl never.
#[local] Arguments schema.HasChange : simpl never.
#[local] Arguments schema.ForceNew : simpl never.
#[local] Arguments schema.Id : simpl never.

Ltac step_diff :=
  unfold diff.result, diff.after, diff.trace, diff.run;
  unfold diff.bind, diff.GetOk, diff.Get, diff.Id, diff.HasChange, diff.query,
    diff.orelse, diff.andalso, diff.as_string, diff.as_int, diff.as_bool,
    diff.ret, diff.panic, nil_;
  cbn [diff.target diff.calls fst snd negb].

(** From the three ways a validator can end to the statements about it:
    [R] is the rejecting condition, [T] the typing under which no
    assertion panics. *)
Lemma decide_outcome (r : Res (option error)) (e : error) (R T : Prop) :
  (r = Val (Some e) ∧ R) ∨ (r = Val None ∧ ¬ R) ∨ (r = Panic ∧ ¬ R ∧ ¬ T) →
  (IsError r ↔ R)
  ∧ (r = Val (Some e) ↔ R)
  ∧ (T → (r = Val None ↔ ¬ R)).
Proof. unfold IsError. naive_solver congruence. Qed.

(** A key set to a value of one type is not declared with another. *)
Lemma GetOk_type_clash d key t v ok :
  GetOk d key = (v, ok) → (∀ x, v ≠ box t x) → ¬ HasType d key t.
Proof.
  intros E Hv Ht. destruct (GetOk_typed d key t Ht) as (x & ok' & E').
  rewrite E in E'. injection E' as -> _. by apply (Hv x).
Qed.

Lemma Get_type_clash d key t v :
  Get d key = v → (∀ x, v ≠ box t x) → ¬ HasType d key t.
Proof.
  intros E Hv Ht. destruct (Get_typed d key t Ht) as (x & E').
  rewrite E in E'. by apply (Hv x).
Qed.

Ltac clash E H :=
  apply (GetOk_type_clash _ _ _ _ _ E) in H; [done | intros ?; discriminate].

(** The outcome of [CustomizeDiffValidateClusterAZMode] from the two reads. *)
Lemma AZMode_result d :
  diff.result CustomizeDiffValidateClusterAZMode d =
  ifSetString (GetOk d "az_mode") (λ s,
    if String.eqb s "cross-az" then
      ifSetInt (GetOk d "num_cache_nodes") (λ n,
        if n =? 1 then Val (Some errAZMode) else Val None)
    else Val None).
Proof.
  unfold CustomizeDiffValidateClusterAZMode, ifSetString, ifSetInt. step_diff.
  destruct (GetOk d "az_mode") as [v ok]. cbn.
  destruct ok; cbn; [|done]. destruct v as [|b|n|s]; cbn; try done.
  unfold AZModeCrossAz. destruct (String.eqb s "cross-az"); cbn; [|done].
  destruct (GetOk d "num_cache_nodes") as [v' ok']. cbn.
  destruct ok'; cbn; [|done]. destruct v' as [|b|n|s']; cbn; try done.
  by destruct (n =? 1).
Qed.

Lemma AZMode_cases d :
  let r := diff.result CustomizeDiffValidateClusterAZMode d in
  let rejected := IsSet d "az_mode" (vstring "cross-az")
                  ∧ IsSet d "num_cache_nodes" (vint 1) in
  (r = Val (Some errAZMode) ∧ rejected)
  ∨ (r = Val None ∧ ¬ rejected)
  ∨ (r = Panic ∧ ¬ rejected
     ∧ ¬ (HasType d "az_mode" TypeString ∧ HasType d "num_cache_nodes" TypeInt)).
Proof.
  intros r rejected. subst r rejected.
  rewrite AZMode_result, <- !GetOk_IsSet. unfold ifSetString, ifSetInt.
  destruct (GetOk d "az_mode") as [v ok] eqn:E,
           (GetOk d "num_cache_nodes") as [v' ok'] eqn:E'. cbn.
  destruct ok; cbn; [|right; left; split; [done|intros [? _]; congruence]].
  destruct v as [|b|n|s]; cbn;
    try (right; right; split_and!;
         [done | intros [? _]; congruence | intros [H _]; clash E H]).
  destruct (String.eqb_spec s "cross-az") as [->|Hne];
    [|right; left; split; [done|intros [? _]; congruence]].
  destruct ok'; cbn; [|right; left; split; [done|intros [_ ?]; congruence]].
  destruct v' as [|b|n|s']; cbn;
    try (right; right; split_and!;
         [done | intros [_ ?]; congruence | intros [_ H]; clash E' H]).
  destruct (Z.eqb_spec n 1) as [->|Hn1]; [by left|].
  right; left; split; [done|intros [_ ?]; congruence].
Qed.

(** C2. For every diff, [CustomizeDiffValidateClusterAZMode] returns an
    error exactly when az_mode is set to "cross-az" and num_cache_nodes is
    set to 1 (hence nonzero).  With the two fields of their declared
    types, it returns nil in every other case. *)
Theorem az_mode_error_iff d :
  let r := diff.result CustomizeDiffValidateClusterAZMode d in
  let rejected := IsSet d "az_mode" (vstring "cross-az")
                  ∧ IsSet d "num_cache_nodes" (vint 1) in
  (IsError r ↔ rejected)
  ∧ (r = Val (Some errAZMode) ↔ rejected)
  ∧ (HasType d "az_mode" TypeString ∧ HasType d "num_cache_nodes" TypeInt →
     (r = Val None ↔ ¬ rejected)).
Proof. intros r rejected. apply decide_outcome, AZMode_cases. Qed.

Lemma IsSet_GetOk_eq d key v w ok :
  GetOk d key = (w, ok) → IsSet d key v → w = v ∧ ok = true.
Proof. intros E H. apply GetOk_IsSet in H. rewrite E in H. by injection H. Qed.

(** The outcome of [CustomizeDiffValidateClusterNumCacheNodes]. *)
Lemma NumCacheNodes_result d :
  diff.result CustomizeDiffValidateClusterNumCacheNodes d =
  ifSetString (GetOk d "engine") (λ s,
    if String.eqb s "memcached" then Val None
    else ifSetInt (GetOk d "num_cache_nodes") (λ n,
           if n =? 1 then Val None else Val (Some errNumCacheNodes))).
Proof.
  unfold CustomizeDiffValidateClusterNumCacheNodes, ifSetString, ifSetInt. step_diff.
  destruct (GetOk d "engine") as [v ok]. cbn.
  destruct ok; cbn; [|done]. destruct v as [|b|n|s]; cbn; try done.
  unfold engineMemcached. destruct (String.eqb s "memcached"); cbn; [done|].
  destruct (GetOk d "num_cache_nodes") as [v' ok']. cbn.
  destruct ok'; cbn; [|done]. destruct v' as [|b|n|s']; cbn; try done.
  by destruct (n =? 1).
Qed.

Lemma NumCacheNodes_cases d :
  let r := diff.result CustomizeDiffValidateClusterNumCacheNodes d in
  (r = Val (Some errNumCacheNodes) ∧ rejectsNumCacheNodes d)
  ∨ (r = Val None ∧ ¬ rejectsNumCacheNodes d)
  ∨ (r = Panic ∧ ¬ rejectsNumCacheNodes d
     ∧ ¬ (HasType d "engine" TypeString ∧ HasType d "num_cache_nodes" TypeInt)).
Proof.
  intros r. subst r. rewrite NumCacheNodes_result.
  unfold ifSetString, ifSetInt, rejectsNumCacheNodes.
  destruct (GetOk d "engine") as [v ok] eqn:E,
           (GetOk d "num_cache_nodes") as [v' ok'] eqn:E'. cbn.
  assert (Hno : ∀ s n, IsSet d "engine" (vstring s) →
                       IsSet d "num_cache_nodes" (vint n) →
                       (v = vstring s ∧ ok = true) ∧ (v' = vint n ∧ ok' = true))
    by eauto using IsSet_GetOk_eq.
  assert (Hrefute : (∀ s n, ¬ ((v = vstring s ∧ ok = true)
                               ∧ (v' = vint n ∧ ok' = true)
                               ∧ s ≠ "memcached" ∧ n ≠ 1)) →
                    ¬ ∃ s n, IsSet d "engine" (vstring s) ∧ s ≠ "" ∧ s ≠ "memcached"
                             ∧ IsSet d "num_cache_nodes" (vint n) ∧ n ≠ 0 ∧ n ≠ 1).
  { intros Hn (s & n & Hs & _ & ? & Hn' & _ & ?).
    apply (Hn s n). split_and!; try done; by apply (Hno s n). }
  destruct ok; cbn;
    [|right; left; split; [done|apply Hrefute; naive_solver congruence]].
  destruct v as [|b|n|s]; cbn;
    try (right; right; split_and!;
         [done | apply Hrefute; naive_solver congruence | intros [H _]; clash E H]).
  destruct (String.eqb_spec s "memcached") as [->|Hne];
    [right; left; split; [done|apply Hrefute; naive_solver congruence]|].
  destruct ok'; cbn;
    [|right; left; split; [done|apply Hrefute; naive_solver congruence]].
  destruct v' as [|b|n|s']; cbn;
    try (right; right; split_and!;
         [done | apply Hrefute; naive_solver congruence | intros [_ H]; clash E' H]).
  destruct (Z.eqb_spec n 1) as [->|Hn1];
    [right; left; split; [done|apply Hrefute; naive_solver congruence]|].
  left. split; [done|]. apply GetOk_IsSet in E, E'.
  exists s, n. eauto 10 using IsSet_string_nonempty, IsSet_int_nonzero.
Qed.

(** C1. For every diff, [CustomizeDiffValidateClusterNumCacheNodes] returns
    an error exactly when engine is set (non-empty) to a value other than
    "memcached" and num_cache_nodes is set (nonzero) to a value other than
    1: any engine other than "memcached" will do, not only "redis".  With
    the two fields of their declared types, it returns nil in every other
    case: engine unset or "memcached", num_cache_nodes unset or 1. *)
Theorem num_cache_nodes_error_iff d :
  let r := diff.result CustomizeDiffValidateClusterNumCacheNodes d in
  let rejected :=
    ∃ s n, IsSet d "engine" (vstring s) ∧ s ≠ "" ∧ s ≠ "memcached"
           ∧ IsSet d "num_cache_nodes" (vint n) ∧ n ≠ 0 ∧ n ≠ 1 in
  (IsError r ↔ rejected)
  ∧ (r = Val (Some errNumCacheNodes) ↔ rejected)
  ∧ (HasType d "engine" TypeString ∧ HasType d "num_cache_nodes" TypeInt →
     (r = Val None ↔ ¬ rejected)
     ∧ (Unset d "engine" ∨ IsSet d "engine" (vstring "memcached")
        ∨ Unset d "num_cache_nodes" ∨ IsSet d "num_cache_nodes" (vint 1)
        → r = Val None)).
Proof.
  intros r rejected.
  destruct (decide_outcome _ _ _ _ (NumCacheNodes_cases d)) as (H1 & H2 & H3).
  split_and!; [done..|]. intros Ht. split; [by apply H3|].
  intros Hc. apply (H3 Ht). intros (s & n & Hs & _ & ? & Hn & _ & ?).
  destruct Hc as [Hc|[Hc|[Hc|Hc]]].
  - by apply (Hc _ Hs).
  - pose proof (IsSet_fun _ _ _ _ Hs Hc). congruence.
  - by apply (Hc _ Hn).
  - pose proof (IsSet_fun _ _ _ _ Hn Hc). congruence.
Qed.

Lemma GetOk_snd_IsSet d key : snd (GetOk d key) = true ↔ ∃ v, IsSet d key v.
Proof.
  split.
  - destruct (GetOk d key) as [v ok] eqn:E. simpl. intros ->.
    exists v. by apply GetOk_IsSet.
  - intros [v H]. apply GetOk_IsSet in H. by rewrite H.
Qed.

(** The outcome of [CustomizeDiffValidateClusterMemcachedSnapshotIdentifier];
    the value of final_snapshot_identifier is never asserted. *)
Lemma SnapshotIdentifier_result d :
  diff.result CustomizeDiffValidateClusterMemcachedSnapshotIdentifier d =
  ifSetString (GetOk d "engine") (λ s,
    if String.eqb s "redis" then Val None
    else if snd (GetOk d "final_snapshot_identifier")
         then Val (Some errSnapshotIdentifier) else Val None).
Proof.
  unfold CustomizeDiffValidateClusterMemcachedSnapshotIdentifier, ifSetString.
  step_diff.
  destruct (GetOk d "engine") as [v ok]. cbn.
  destruct ok; cbn; [|done]. destruct v as [|b|n|s]; cbn; try done.
  unfold engineRedis. destruct (String.eqb s "redis"); cbn; [done|].
  by destruct (GetOk d "final_snapshot_identifier") as [? []].
Qed.

Lemma SnapshotIdentifier_cases d :
  let r := diff.result CustomizeDiffValidateClusterMemcachedSnapshotIdentifier d in
  (r = Val (Some errSnapshotIdentifier) ∧ rejectsSnapshotIdentifier d)
  ∨ (r = Val None ∧ ¬ rejectsSnapshotIdentifier d)
  ∨ (r = Panic ∧ ¬ rejectsSnapshotIdentifier d ∧ ¬ HasType d "engine" TypeString).
Proof.
  intros r. subst r. rewrite SnapshotIdentifier_result.
  unfold ifSetString, rejectsSnapshotIdentifier. rewrite <- GetOk_snd_IsSet.
  destruct (GetOk d "engine") as [v ok] eqn:E. cbn.
  assert (Hrefute : (∀ s, ¬ (v = vstring s ∧ ok = true ∧ s ≠ "redis")) →
                    ¬ ∃ s, IsSet d "engine" (vstring s) ∧ s ≠ "" ∧ s ≠ "redis").
  { intros Hn (s & Hs & _ & ?). apply (Hn s).
    destruct (IsSet_GetOk_eq _ _ _ _ _ E Hs). done. }
  destruct ok; cbn;
    [|right; left; split; [done|intros [H _]; revert H; apply Hrefute;
                                 naive_solver congruence]].
  destruct v as [|b|n|s]; cbn;
    try (right; right; split_and!;
         [done
         | intros [H _]; revert H; apply Hrefute; naive_solver congruence
         | intros H; clash E H]).
  destruct (String.eqb_spec s "redis") as [->|Hne];
    [right; left; split; [done|intros [H _]; revert H; apply Hrefute;
                                naive_solver congruence]|].
  destruct (snd (GetOk d "final_snapshot_identifier")) eqn:E'.
  - left. split; [done|]. apply GetOk_IsSet in E.
    split; [|done]. eauto 10 using IsSet_string_nonempty.
  - right; left. split; [done|]. by intros [_ ?].
Qed.

(** C6. For every diff,
    [CustomizeDiffValidateClusterMemcachedSnapshotIdentifier] returns its
    error exactly when engine is set (non-empty) to a value other than
    "redis" and final_snapshot_identifier is set; with engine unset it
    returns nil even if final_snapshot_identifier is set.  With engine
    declared a string, it returns nil in every other case. *)
Theorem snapshot_identifier_error_iff d :
  let r := diff.result CustomizeDiffValidateClusterMemcachedSnapshotIdentifier d in
  let rejected :=
    (∃ s, IsSet d "engine" (vstring s) ∧ s ≠ "" ∧ s ≠ "redis")
    ∧ (∃ v, IsSet d "final_snapshot_identifier" v) in
  (IsError r ↔ rejected)
  ∧ (r = Val (Some errSnapshotIdentifier) ↔ rejected)
  ∧ (Unset d "engine" → r = Val None)
  ∧ (HasType d "engine" TypeString → (r = Val None ↔ ¬ rejected)).
Proof.
  intros r rejected.
  destruct (decide_outcome _ _ _ _ (SnapshotIdentifier_cases d)) as (H1 & H2 & H3).
  split_and!; [done..| |done].
  intros Hu. subst r. rewrite SnapshotIdentifier_result. unfold ifSetString.
  destruct (GetOk d "engine") as [v ok] eqn:E. cbn.
  destruct ok; [|done]. apply GetOk_IsSet in E. by destruct (Hu _ E).
Qed.

(** The outcome of [CustomizeDiffValidateReplicationGroupAutomaticFailover]. *)
Lemma AutomaticFailover_result d :
  diff.result CustomizeDiffValidateReplicationGroupAutomaticFailover d =
  asBool (Get d "multi_az_enabled") (λ m,
    if m then
      asBool (Get d "automatic_failover_enabled") (λ a,
        if a then Val None else Val (Some errAutomaticFailover))
    else Val None).
Proof.
  unfold CustomizeDiffValidateReplicationGroupAutomaticFailover, asBool. step_diff.
  destruct (Get d "multi_az_enabled") as [|m|n|s]; cbn; try done.
  destruct m; cbn; [|done].
  destruct (Get d "automatic_failover_enabled") as [|a|n|s]; cbn; try done.
  by destruct a.
Qed.

Lemma AutomaticFailover_cases d :
  let r := diff.result CustomizeDiffValidateReplicationGroupAutomaticFailover d in
  let rejected := Reads d "multi_az_enabled" (vbool true)
                  ∧ Reads d "automatic_failover_enabled" (vbool false) in
  (r = Val (Some errAutomaticFailover) ∧ rejected)
  ∨ (r = Val None ∧ ¬ rejected)
  ∨ (r = Panic ∧ ¬ rejected
     ∧ ¬ (HasType d "multi_az_enabled" TypeBool
          ∧ HasType d "automatic_failover_enabled" TypeBool)).
Proof.
  intros r rejected. subst r rejected.
  rewrite AutomaticFailover_result, <- !Get_Reads by done. unfold asBool.
  destruct (Get d "multi_az_enabled") as [|m|n|s] eqn:E;
    try (right; right; split_and!;
         [done | intros [? _]; congruence
         | intros [H _]; apply (Get_type_clash _ _ _ _ E) in H;
           [done | intros ?; discriminate]]).
  destruct m; [|right; left; split; [done|intros [? _]; congruence]].
  destruct (Get d "automatic_failover_enabled") as [|a|n|s] eqn:E';
    try (right; right; split_and!;
         [done | intros [_ ?]; congruence
         | intros [_ H]; apply (Get_type_clash _ _ _ _ E') in H;
           [done | intros ?; discriminate]]).
  destruct a; [right; left; split; [done|intros [_ ?]; congruence]|by left].
Qed.

(** C7. For every diff,
    [CustomizeDiffValidateReplicationGroupAutomaticFailover] returns an error
    exactly when multi_az_enabled reads true and automatic_failover_enabled
    reads false; whenever multi_az_enabled reads false it returns nil,
    whatever automatic_failover_enabled is.  With both fields declared bool
    it returns nil in every other case. *)
Theorem automatic_failover_error_iff d :
  let r := diff.result CustomizeDiffValidateReplicationGroupAutomaticFailover d in
  let rejected := Reads d "multi_az_enabled" (vbool true)
                  ∧ Reads d "automatic_failover_enabled" (vbool false) in
  (IsError r ↔ rejected)
  ∧ (r = Val (Some errAutomaticFailover) ↔ rejected)
  ∧ (Reads d "multi_az_enabled" (vbool false) → r = Val None)
  ∧ (HasType d "multi_az_enabled" TypeBool
     ∧ HasType d "automatic_failover_enabled" TypeBool →
     (r = Val None ↔ ¬ rejected)).
Proof.
  intros r rejected.
  destruct (decide_outcome _ _ _ _ (AutomaticFailover_cases d)) as (H1 & H2 & H3).
  split_and!; [done..| |done].
  intros Hf%Get_Reads; [|done]. subst r.
  rewrite AutomaticFailover_result. by rewrite Hf.
Qed.

(** ** Forcing re-creation *)

(** A key with a change is a key of the schema, so [ForceNew] accepts it. *)
Lemma ForceNew_changed d key :
  HasChange d key = true →
  ForceNew d key = (mkDiff (id d) (fields d) ({[key]} ∪ forcedNewKeys d), None).
Proof.
  unfold ForceNew. intros H. rewrite H. cbn.
  destruct (fields d !! key) eqn:Hf; [done|].
  unfold HasChange, GetChange, get in H. rewrite Hf in H. cbn in H.
  by rewrite bool_decide_eq_true_2 in H.
Qed.

(** The full run of [CustomizeDiffClusterMemcachedNodeType]: outcome, diff
    afterwards and calls made. *)
Lemma MemcachedNodeType_run d :
  diff.run CustomizeDiffClusterMemcachedNodeType d =
  if String.eqb (Id d) "" then (Val (@None error), diff.mkWorld d [diff.CallId])
  else if negb (HasChange d "node_type") then
    (Val None, diff.mkWorld d [diff.CallId; diff.CallHasChange "node_type"])
  else
    let seen := [diff.CallId; diff.CallHasChange "node_type"; diff.CallGetOk "engine"] in
    if snd (GetOk d "engine") then
      match fst (GetOk d "engine") with
      | vstring s =>
          if String.eqb s "redis" then (Val None, diff.mkWorld d seen)
          else (Val (snd (ForceNew d "node_type")),
                diff.mkWorld (fst (ForceNew d "node_type"))
                             (seen ++ [diff.CallForceNew "node_type"]))
      | _ => (Panic, diff.mkWorld d seen)
      end
    else (Val None, diff.mkWorld d seen).
Proof.
  unfold CustomizeDiffClusterMemcachedNodeType. step_diff.
  destruct (String.eqb (Id d) ""); cbn; [done|].
  destruct (HasChange d "node_type"); cbn; [|done].
  destruct (GetOk d "engine") as [v ok]. cbn.
  destruct ok; cbn; [|done]. destruct v as [|b|n|s]; cbn; try done.
  unfold engineRedis. destruct (String.eqb s "redis"); cbn; [done|].
  unfold diff.ForceNew. cbn. by destruct (ForceNew d "node_type").
Qed.

(** The ways a run of [CustomizeDiffClusterMemcachedNodeType] can go. *)
Lemma MemcachedNodeType_cases d :
  let f := CustomizeDiffClusterMemcachedNodeType in
  (forcesNewNodeType d ∧ diff.run f d =
     (Val (snd (ForceNew d "node_type")),
      diff.mkWorld (fst (ForceNew d "node_type"))
        [diff.CallId; diff.CallHasChange "node_type"; diff.CallGetOk "engine";
         diff.CallForceNew "node_type"]))
  ∨ (¬ forcesNewNodeType d
     ∧ ∃ r cs, diff.run f d = (r, diff.mkWorld d cs)
               ∧ (∀ key, diff.CallForceNew key ∉ cs)
               ∧ (r = Val None ∨ (r = Panic ∧ ¬ HasType d "engine" TypeString))).
Proof.
  intros f. subst f. unfold forcesNewNodeType.
  rewrite (MemcachedNodeType_run d).
  assert (Hquiet : ∀ (r : Res (option error)) (cs : list diff.Call),
            (∀ key, diff.CallForceNew key ∉ cs) →
            r = Val None ∨ (r = Panic ∧ ¬ HasType d "engine" TypeString) →
            ∃ r' cs', (r, diff.mkWorld d cs) = (r', diff.mkWorld d cs')
                      ∧ (∀ key, diff.CallForceNew key ∉ cs')
                      ∧ (r' = Val None
                         ∨ (r' = Panic ∧ ¬ HasType d "engine" TypeString)))
    by eauto 10.
  destruct (String.eqb_spec (Id d) "") as [Hid|Hid].
  { right. split; [naive_solver|]. apply Hquiet; [set_solver|by left]. }
  destruct (HasChange d "node_type") eqn:Hc; cbn;
    [|right; split; [naive_solver|]; apply Hquiet; [set_solver|by left]].
  destruct (GetOk d "engine") as [v ok] eqn:E. cbn.
  assert (Hrefute : (∀ s, ¬ (v = vstring s ∧ ok = true ∧ s ≠ "redis")) →
                    ¬ (Id d ≠ "" ∧ true = true
                       ∧ ∃ s, IsSet d "engine" (vstring s) ∧ s ≠ "" ∧ s ≠ "redis")).
  { intros Hn (_ & _ & s & Hs & _ & ?). apply (Hn s).
    destruct (IsSet_GetOk_eq _ _ _ _ _ E Hs). done. }
  destruct ok; cbn;
    [|right; split; [apply Hrefute; naive_solver congruence|];
      apply Hquiet; [set_solver|by left]].
  destruct v as [|b|n|s]; cbn;
    try (right; split; [apply Hrefute; naive_solver congruence|];
         apply Hquiet; [set_solver|right; split; [done|intros H; clash E H]]).
  destruct (String.eqb_spec s "redis") as [->|Hne].
  - right. split; [apply Hrefute; naive_solver congruence|].
    apply Hquiet; [set_solver|by left].
  - left. split; [|done]. apply GetOk_IsSet in E.
    eauto 10 using IsSet_string_nonempty.
Qed.

(** C5. For every diff, [CustomizeDiffClusterMemcachedNodeType] calls
    [ForceNew] on node_type, and returns what that call returns, exactly
    when the id is non-empty, node_type has a change and engine is set
    (non-empty) to a value other than "redis"; in every other case it calls
    no [ForceNew], leaves the diff as it was and, with engine declared a
    string, returns nil. *)
Theorem memcached_node_type_forces_iff d :
  let f := CustomizeDiffClusterMemcachedNodeType in
  let forces :=
    Id d ≠ "" ∧ HasChange d "node_type" = true
    ∧ ∃ s, IsSet d "engine" (vstring s) ∧ s ≠ "" ∧ s ≠ "redis" in
  (diff.CallForceNew "node_type" ∈ diff.trace f d ↔ forces)
  ∧ (forces →
     diff.result f d = Val (snd (ForceNew d "node_type"))
     ∧ diff.after f d = fst (ForceNew d "node_type"))
  ∧ (¬ forces →
     diff.after f d = d
     ∧ (∀ key, diff.CallForceNew key ∉ diff.trace f d)
     ∧ (HasType d "engine" TypeString → diff.result f d = Val None)).
Proof.
  intros f forces. subst f forces.
  unfold diff.trace, diff.result, diff.after.
  destruct (MemcachedNodeType_cases d)
    as [[Hf ->]|[Hf (r & cs & -> & Hcs & Hr)]];
    unfold forcesNewNodeType in Hf; cbn.
  - split_and!; [split; [done|set_solver] | done | done].
  - split_and!; [split; [by intros ?%Hcs | done] | done |].
    intros _. split_and!; [done..|]. intros Ht. by destruct Hr as [|[_ []]].
Qed.

(** When it forces re-creation the call succeeds: nil is returned and
    node_type is flagged, nothing else changes. *)
Lemma memcached_node_type_flags d :
  forcesNewNodeType d →
  diff.result CustomizeDiffClusterMemcachedNodeType d = Val None
  ∧ diff.after CustomizeDiffClusterMemcachedNodeType d =
    mkDiff (id d) (fields d) ({["node_type"]} ∪ forcedNewKeys d).
Proof.
  intros Hf. unfold diff.result, diff.after.
  destruct (MemcachedNodeType_cases d) as [[_ ->]|[? _]]; [|done].
  destruct Hf as (_ & Hc & _). by rewrite (ForceNew_changed d _ Hc).
Qed.

(** ** Transit encryption *)

Lemma GetOk_fst d key : fst (GetOk d key) = Get d key.
Proof. done. Qed.

(** Comparing a three-segment release with 1.6.12. *)
Lemma LessThan_min_release cmp a b c :
  gversion.LessThan cmp (gversion.mkVersion [a; b; c] "")
    minMemcachedTransitEncryptionVersion = true
  ↔ a < 1 ∨ (a = 1 ∧ (b < 6 ∨ (b = 6 ∧ c < 12))).
Proof.
  unfold gversion.LessThan, gversion.Compare, minMemcachedTransitEncryptionVersion.
  cbn [gversion.segments gversion.pre].
  case_bool_decide as Hs.
  - injection Hs as -> -> ->. cbn. split; [done|lia].
  - cbn [gversion.compareSegments gversion.allZero].
    assert (a ≠ 1 ∨ b ≠ 6 ∨ c ≠ 12) by (destruct (decide (a = 1)),
      (decide (b = 6)), (decide (c = 12)); subst; tauto).
    destruct (Z.eqb_spec a 1), (Z.ltb_spec a 1), (Z.eqb_spec b 6),
      (Z.ltb_spec b 6), (Z.eqb_spec c 12), (Z.ltb_spec c 12);
      cbn; split; intros; try done; lia.
Qed.

Lemma LessThan_min_self cmp :
  gversion.LessThan cmp minMemcachedTransitEncryptionVersion
    minMemcachedTransitEncryptionVersion = false.
Proof. done. Qed.

Lemma GreaterThan_not_LessThan cmp v o :
  gversion.GreaterThan cmp v o = true → gversion.LessThan cmp v o = false.
Proof. unfold gversion.GreaterThan, gversion.LessThan. lia. Qed.

Lemma Equal_not_LessThan cmp v o :
  gversion.Equal cmp v o = true → gversion.LessThan cmp v o = false.
Proof. unfold gversion.Equal, gversion.LessThan. lia. Qed.

Section TransitEncryption.

Variable normalizeEngineVersion : string → gversion.Version + error.
Variable cmp : string → string → Z.

Let validate := CustomizeDiffValidateTransitEncryptionEnabled normalizeEngineVersion cmp.

Lemma TransitEncryption_result d :
  diff.result validate d =
  if snd (GetOk d "transit_encryption_enabled") then
    asBool (fst (GetOk d "transit_encryption_enabled")) (λ enabled,
      if enabled then
        asString (Get d "engine") (λ engine,
          if String.eqb engine "redis" then Val (Some errTransitRedis)
          else versionCheck normalizeEngineVersion cmp d)
      else Val None)
  else Val None.
Proof.
  subst validate.
  unfold CustomizeDiffValidateTransitEncryptionEnabled, versionCheck, asBool, asString.
  step_diff.
  destruct (GetOk d "transit_encryption_enabled") as [v ok]. cbn.
  destruct ok; cbn; [|done]. destruct v as [|t|n|s]; cbn; try done.
  destruct t; cbn; [|done].
  destruct (Get d "engine") as [|b|n|e]; cbn; try done.
  unfold engineRedis. destruct (String.eqb e "redis"); cbn; [done|].
  destruct (GetOk d "engine_version") as [v ok']. cbn.
  destruct ok'; cbn; [|done]. destruct v as [|b|n|s]; cbn; try done.
  destruct (normalizeEngineVersion s) as [ver|err]; cbn; [|done].
  by destruct (gversion.LessThan _ _ _).
Qed.

(** With encryption on and an engine other than redis, the outcome is
    that of the version check. *)
Lemma TransitEncryption_checks_version d e :
  IsSet d "transit_encryption_enabled" (vbool true) →
  Reads d "engine" (vstring e) → e ≠ "redis" →
  diff.result validate d = versionCheck normalizeEngineVersion cmp d.
Proof.
  intros Hon He Hne. rewrite TransitEncryption_result.
  apply GetOk_IsSet in Hon. rewrite Hon. cbn.
  apply Get_Reads in He; [|done]. rewrite He. cbn.
  by destruct (String.eqb_spec e "redis").
Qed.

(** C3. For every diff, [CustomizeDiffValidateTransitEncryptionEnabled]
    returns nil when transit_encryption_enabled is unset or false.  When
    it is set and true, the error pointing to
    aws_elasticache_replication_group is returned exactly when engine reads
    "redis" (no error of [normalizeEngineVersion] being that same error),
    and with another engine and engine_version unset the result is nil. *)
Theorem transit_encryption_engine_check d :
  let r := diff.result
             (CustomizeDiffValidateTransitEncryptionEnabled normalizeEngineVersion cmp) d in
  (Unset d "transit_encryption_enabled"
   ∨ Reads d "transit_encryption_enabled" (vbool false) → r = Val None)
  ∧ (IsSet d "transit_encryption_enabled" (vbool true) →
     (Reads d "engine" (vstring "redis") → r = Val (Some errTransitRedis))
     ∧ ((∀ s, normalizeEngineVersion s ≠ inr errTransitRedis) →
        r = Val (Some errTransitRedis) → Reads d "engine" (vstring "redis"))
     ∧ (∀ e, Reads d "engine" (vstring e) → e ≠ "redis" →
             Unset d "engine_version" → r = Val None)).
Proof.
  intros r. subst r. fold validate. split.
  - intros Hoff. rewrite TransitEncryption_result.
    destruct (GetOk d "transit_encryption_enabled") as [v ok] eqn:E. cbn.
    destruct ok; [|done]. destruct Hoff as [Hu|Hf].
    + apply GetOk_IsSet in E. by destruct (Hu _ E).
    + apply Get_Reads in Hf; [|done]. rewrite <- GetOk_fst, E in Hf.
      cbn in Hf. subst v. apply GetOk_IsSet, IsSet_bool_true in E. done.
  - intros Hon. split_and!.
    + intros Hr. rewrite TransitEncryption_result.
      apply GetOk_IsSet in Hon. apply Get_Reads in Hr; [|done].
      by rewrite Hon, Hr.
    + intros Hn Hr. rewrite TransitEncryption_result in Hr.
      apply GetOk_IsSet in Hon. rewrite Hon in Hr. cbn in Hr.
      unfold asString in Hr.
      destruct (Get d "engine") as [|b|n|e] eqn:Ee; try done.
      destruct (String.eqb_spec e "redis") as [->|Hne];
        [by apply Get_Reads|].
      unfold versionCheck in Hr.
      destruct (GetOk d "engine_version") as [[|b|n|s] []]; try done.
      cbn in Hr.
      destruct (normalizeEngineVersion s) as [v|err] eqn:En.
      * by destruct (gversion.LessThan _ _ _).
      * injection Hr as ->. by destruct (Hn s).
    + intros e He Hne Hu.
      rewrite (TransitEncryption_checks_version d e Hon He Hne).
      unfold versionCheck.
      destruct (GetOk d "engine_version") as [v ok] eqn:E. cbn.
      destruct ok; [|done].
      apply GetOk_IsSet in E. by destruct (Hu _ E).
Qed.

(** C4. With encryption set to true, an engine other than "redis" and
    engine_version set to a string that [normalizeEngineVersion] parses,
    an error is returned exactly when the parsed version is below 1.6.12:
    1.6.12 itself and every greater version give nil.  An error of
    [normalizeEngineVersion] is returned as it is. *)
Theorem transit_encryption_version_threshold d e s :
  IsSet d "transit_encryption_enabled" (vbool true) →
  Reads d "engine" (vstring e) → e ≠ "redis" →
  IsSet d "engine_version" (vstring s) →
  let r := diff.result
             (CustomizeDiffValidateTransitEncryptionEnabled normalizeEngineVersion cmp) d in
  let below v := gversion.LessThan cmp v minMemcachedTransitEncryptionVersion in
  (∀ v, normalizeEngineVersion s = inl v →
        (IsError r ↔ below v = true)
        ∧ (below v = true → r = Val (Some (errTransitVersion v)))
        ∧ (below v = false → r = Val None)
        ∧ (v = minMemcachedTransitEncryptionVersion → r = Val None)
        ∧ (gversion.GreaterThan cmp v minMemcachedTransitEncryptionVersion = true →
           r = Val None)
        ∧ (∀ a b c, v = gversion.mkVersion [a; b; c] "" →
                    (IsError r ↔ a < 1 ∨ (a = 1 ∧ (b < 6 ∨ (b = 6 ∧ c < 12))))))
  ∧ (∀ err, normalizeEngineVersion s = inr err → r = Val (Some err)).
Proof.
  intros Hon He Hne Hv r below. subst r. fold validate.
  rewrite (TransitEncryption_checks_version d e Hon He Hne).
  unfold versionCheck. apply GetOk_IsSet in Hv. rewrite Hv. cbn.
  split; [|by intros err ->].
  intros v ->.
  assert (Hcase : (below v = true ∧ IsError (Val (Some (errTransitVersion v))))
                  ∨ (below v = false ∧ ¬ IsError (Val None))).
  { destruct (below v); [left|right]; (split; [done|]); unfold IsError;
      [eauto | by intros [? ?]]. }
  subst below. cbn beta in *.
  split_and!.
  - destruct Hcase as [[-> ?]|[-> ?]]; split; done.
  - by intros ->.
  - by intros ->.
  - intros ->. by rewrite LessThan_min_self.
  - intros Hg. by rewrite (GreaterThan_not_LessThan _ _ _ Hg).
  - intros a b c ->. rewrite <- LessThan_min_release with (cmp := cmp).
    destruct Hcase as [[-> ?]|[-> ?]]; split; done.
Qed.

End TransitEncryption.

(** ** No panic under the declared types *)

Lemma versionCheck_returns normalizeEngineVersion cmp d :
  HasType d "engine_version" TypeString →
  ∃ e, versionCheck normalizeEngineVersion cmp d = Val e.
Proof.
  intros Hv. unfold versionCheck.
  destruct (GetOk_string d _ Hv) as (s & ok & ->). cbn.
  destruct ok; [|eauto].
  destruct (normalizeEngineVersion s); [|eauto].
  destruct (gversion.LessThan _ _ _); eauto.
Qed.

(** C9. Each of the six functions returns nil or an error, no type
    assertion panicking, as soon as the schema declares with their types
    the keys that this function asserts: the diff need not declare the
    keys the other functions read, so the statement holds of the diffs of
    the cluster and of the replication group alike.  In particular, under
    the eight declared field types all six functions return. *)
Theorem customize_diff_total
    (normalizeEngineVersion : string → gversion.Version + error)
    (cmp : string → string → Z) (d : ResourceDiff) :
  (HasType d "az_mode" TypeString → HasType d "num_cache_nodes" TypeInt →
   Returns CustomizeDiffValidateClusterAZMode d)
  ∧ (HasType d "engine" TypeString → HasType d "num_cache_nodes" TypeInt →
     Returns CustomizeDiffValidateClusterNumCacheNodes d)
  ∧ (HasType d "engine" TypeString →
     Returns CustomizeDiffClusterMemcachedNodeType d)
  ∧ (HasType d "engine" TypeString →
     Returns CustomizeDiffValidateClusterMemcachedSnapshotIdentifier d)
  ∧ (HasType d "multi_az_enabled" TypeBool →
     HasType d "automatic_failover_enabled" TypeBool →
     Returns CustomizeDiffValidateReplicationGroupAutomaticFailover d)
  ∧ (HasType d "transit_encryption_enabled" TypeBool →
     HasType d "engine" TypeString → HasType d "engine_version" TypeString →
     Returns (CustomizeDiffValidateTransitEncryptionEnabled normalizeEngineVersion cmp) d)
  ∧ (DeclaredTypes d →
     Returns CustomizeDiffValidateClusterAZMode d
     ∧ Returns CustomizeDiffValidateClusterNumCacheNodes d
     ∧ Returns CustomizeDiffClusterMemcachedNodeType d
     ∧ Returns CustomizeDiffValidateClusterMemcachedSnapshotIdentifier d
     ∧ Returns CustomizeDiffValidateReplicationGroupAutomaticFailover d
     ∧ Returns (CustomizeDiffValidateTransitEncryptionEnabled normalizeEngineVersion cmp) d).
Proof.
  assert (Hazm : HasType d "az_mode" TypeString → HasType d "num_cache_nodes" TypeInt →
                 Returns CustomizeDiffValidateClusterAZMode d).
  { intros Haz Hn. unfold Returns.
    destruct (AZMode_cases d) as [[-> _]|[[-> _]|(_ & _ & Hno)]]; eauto.
    by destruct Hno. }
  assert (Hnum : HasType d "engine" TypeString → HasType d "num_cache_nodes" TypeInt →
                 Returns CustomizeDiffValidateClusterNumCacheNodes d).
  { intros He Hn. unfold Returns.
    destruct (NumCacheNodes_cases d) as [[-> _]|[[-> _]|(_ & _ & Hno)]]; eauto.
    by destruct Hno. }
  assert (Hnode : HasType d "engine" TypeString →
                  Returns CustomizeDiffClusterMemcachedNodeType d).
  { intros He. unfold Returns, diff.result.
    destruct (MemcachedNodeType_cases d)
      as [[_ ->]|[_ (r & cs & -> & _ & [->|[_ Hno]])]]; cbn; eauto.
    by destruct Hno. }
  assert (Hsnap : HasType d "engine" TypeString →
                  Returns CustomizeDiffValidateClusterMemcachedSnapshotIdentifier d).
  { intros He. unfold Returns.
    destruct (SnapshotIdentifier_cases d) as [[-> _]|[[-> _]|(_ & _ & Hno)]]; eauto.
    by destruct Hno. }
  assert (Hfail : HasType d "multi_az_enabled" TypeBool →
                  HasType d "automatic_failover_enabled" TypeBool →
                  Returns CustomizeDiffValidateReplicationGroupAutomaticFailover d).
  { intros Hm Ha. unfold Returns.
    destruct (AutomaticFailover_cases d) as [[-> _]|[[-> _]|(_ & _ & Hno)]]; eauto.
    by destruct Hno. }
  assert (Htls : HasType d "transit_encryption_enabled" TypeBool →
                 HasType d "engine" TypeString → HasType d "engine_version" TypeString →
                 Returns (CustomizeDiffValidateTransitEncryptionEnabled
                            normalizeEngineVersion cmp) d).
  { intros Ht He Hv. unfold Returns.
    rewrite TransitEncryption_result. unfold asBool, asString.
    destruct (GetOk_bool d _ Ht) as (t & ok & ->), (Get_string d _ He) as [e ->].
    cbn. destruct ok, t; eauto.
    destruct (String.eqb e "redis"); eauto using versionCheck_returns. }
  split_and!; try done.
  intros (Haz & He & Hv & Hf & Hn & Hm & Ha & Ht). split_and!; auto.
Qed.

(** ** The theorems at sample inputs *)

Ltac declared := vm_compute; reflexivity.
Ltac is_set := apply GetOk_IsSet; vm_compute; reflexivity.
Ltac not_set H := apply GetOk_IsSet in H; vm_compute in H; discriminate.
Ltac reads := apply Get_Reads; [discriminate | vm_compute; reflexivity].

(** A redis cluster with two nodes is rejected, an empty configuration is
    not. *)
Lemma num_cache_nodes_error_iff_witness :
  diff.result CustomizeDiffValidateClusterNumCacheNodes examples.redisTwoNodes
  = Val (Some errNumCacheNodes)
  ∧ diff.result CustomizeDiffValidateClusterNumCacheNodes examples.nothingSet
    = Val None.
Proof.
  split.
  - destruct (num_cache_nodes_error_iff examples.redisTwoNodes) as (_ & Hr & _).
    apply Hr. exists "redis", 2. split_and!; try is_set; discriminate.
  - destruct (num_cache_nodes_error_iff examples.nothingSet) as (_ & _ & Hnil).
    destruct Hnil as [_ Hnil]; [split; declared|].
    apply Hnil. left. intros v H. not_set H.
Defined.

(** Cross-az with a single node is rejected, an empty configuration is
    not. *)
Lemma az_mode_error_iff_witness :
  diff.result CustomizeDiffValidateClusterAZMode examples.crossAzOneNode
  = Val (Some errAZMode)
  ∧ diff.result CustomizeDiffValidateClusterAZMode examples.nothingSet = Val None.
Proof.
  split.
  - destruct (az_mode_error_iff examples.crossAzOneNode) as (_ & Hr & _).
    apply Hr. split; is_set.
  - destruct (az_mode_error_iff examples.nothingSet) as (_ & _ & Hnil).
    apply Hnil; [split; declared|]. intros [H _]. not_set H.
Defined.

(** A memcached cluster with a final snapshot is rejected, an empty
    configuration is not. *)
Lemma snapshot_identifier_error_iff_witness :
  diff.result CustomizeDiffValidateClusterMemcachedSnapshotIdentifier
    examples.memcachedWithSnapshot
  = Val (Some errSnapshotIdentifier)
  ∧ diff.result CustomizeDiffValidateClusterMemcachedSnapshotIdentifier
      examples.nothingSet
    = Val None.
Proof.
  split.
  - destruct (snapshot_identifier_error_iff examples.memcachedWithSnapshot)
      as (_ & Hr & _).
    apply Hr. split.
    + exists "memcached". split_and!; try is_set; discriminate.
    + exists (vstring "final"). is_set.
  - destruct (snapshot_identifier_error_iff examples.nothingSet)
      as (_ & _ & _ & Hnil).
    apply Hnil; [declared|]. intros [(s & H & _) _]. not_set H.
Defined.

(** Multi-AZ without automatic failover is rejected, an empty
    configuration is not. *)
Lemma automatic_failover_error_iff_witness :
  diff.result CustomizeDiffValidateReplicationGroupAutomaticFailover
    examples.multiAzNoFailover
  = Val (Some errAutomaticFailover)
  ∧ diff.result CustomizeDiffValidateReplicationGroupAutomaticFailover
      examples.nothingSet
    = Val None.
Proof.
  split.
  - destruct (automatic_failover_error_iff examples.multiAzNoFailover)
      as (_ & Hr & _).
    apply Hr. split; reads.
  - destruct (automatic_failover_error_iff examples.nothingSet)
      as (_ & _ & _ & Hnil).
    apply Hnil; [split; declared|].
    intros [H%Get_Reads _]; [vm_compute in H|]; discriminate.
Defined.

(** Resizing an existing memcached cluster calls [ForceNew] on node_type;
    a new cluster with nothing set gets nil. *)
Lemma memcached_node_type_forces_iff_witness :
  diff.CallForceNew "node_type"
  ∈ diff.trace CustomizeDiffClusterMemcachedNodeType examples.memcachedResized
  ∧ diff.result CustomizeDiffClusterMemcachedNodeType examples.nothingSet
    = Val None.
Proof.
  split.
  - destruct (memcached_node_type_forces_iff examples.memcachedResized)
      as (Hiff & _).
    apply Hiff. split_and!.
    + discriminate.
    + vm_compute. reflexivity.
    + exists "memcached". split_and!; try is_set; discriminate.
  - destruct (memcached_node_type_forces_iff examples.nothingSet)
      as (_ & _ & Hnot).
    destruct Hnot as (_ & _ & Hnil); [by intros [[] _]|].
    apply Hnil. declared.
Defined.

(** Encryption on a redis cluster points to the replication group; read
    backwards, that error tells the engine is redis. *)
Lemma transit_encryption_engine_check_witness :
  diff.result
    (CustomizeDiffValidateTransitEncryptionEnabled
       examples.sampleNormalize examples.samplePrereleases)
    examples.redisEncrypted
  = Val (Some errTransitRedis)
  ∧ Reads examples.redisEncrypted "engine" (vstring "redis").
Proof.
  assert (Hn : ∀ s, examples.sampleNormalize s ≠ inr errTransitRedis).
  { intros s. unfold examples.sampleNormalize.
    repeat (destruct (String.eqb s _)); discriminate. }
  destruct (transit_encryption_engine_check
              examples.sampleNormalize examples.samplePrereleases
              examples.redisEncrypted) as (_ & Hon).
  destruct Hon as (Hr & Hback & _); [is_set|].
  assert (Hres := Hr ltac:(reads)).
  split; [exact Hres | exact (Hback Hn Hres)].
Defined.

(** Memcached 1.6.11 is below the threshold. *)
Lemma transit_encryption_version_threshold_witness :
  diff.result
    (CustomizeDiffValidateTransitEncryptionEnabled
       examples.sampleNormalize examples.samplePrereleases)
    (examples.memcachedEncrypted "1.6.11")
  = Val (Some (errTransitVersion (gversion.mkVersion [1; 6; 11] ""))).
Proof.
  pose (d := examples.memcachedEncrypted "1.6.11").
  assert (Hon : IsSet d "transit_encryption_enabled" (vbool true)) by is_set.
  assert (He : Reads d "engine" (vstring "memcached")) by reads.
  assert (Hne : "memcached" ≠ "redis") by discriminate.
  assert (Hv : IsSet d "engine_version" (vstring "1.6.11")) by is_set.
  destruct (transit_encryption_version_threshold
              examples.sampleNormalize examples.samplePrereleases d
              "memcached" "1.6.11" Hon He Hne Hv) as (Hok & _).
  destruct (Hok (gversion.mkVersion [1; 6; 11] "") eq_refl) as (_ & Hr & _).
  apply Hr. reflexivity.
Defined.

(** Each function on a diff where every assertion it holds is run: the
    five cluster functions on diffs of the cluster, which declare neither
    multi_az_enabled nor automatic_failover_enabled, and the failover
    validator on a diff of the replication group, which declares neither
    az_mode nor num_cache_nodes. *)
Lemma customize_diff_total_witness :
  Returns CustomizeDiffValidateClusterAZMode examples.clusterCrossAzOneNode
  ∧ Returns CustomizeDiffValidateClusterNumCacheNodes examples.clusterRedisTwoNodes
  ∧ Returns CustomizeDiffClusterMemcachedNodeType examples.clusterMemcachedResized
  ∧ Returns CustomizeDiffValidateClusterMemcachedSnapshotIdentifier
      examples.clusterMemcachedWithSnapshot
  ∧ Returns CustomizeDiffValidateReplicationGroupAutomaticFailover
      examples.replicationGroupMultiAz
  ∧ Returns
      (CustomizeDiffValidateTransitEncryptionEnabled
         examples.sampleNormalize examples.samplePrereleases)
      examples.clusterMemcachedEncrypted.
Proof.
  pose (total := customize_diff_total examples.sampleNormalize examples.samplePrereleases).
  split_and!.
  - destruct (total examples.clusterCrossAzOneNode) as (H & _). apply H; declared.
  - destruct (total examples.clusterRedisTwoNodes) as (_ & H & _). apply H; declared.
  - destruct (total examples.clusterMemcachedResized) as (_ & _ & H & _).
    apply H; declared.
  - destruct (total examples.clusterMemcachedWithSnapshot) as (_ & _ & _ & H & _).
    apply H; declared.
  - destruct (total examples.replicationGroupMultiAz) as (_ & _ & _ & _ & H & _).
    apply H; declared.
  - destruct (total examples.clusterMemcachedEncrypted) as (_ & _ & _ & _ & _ & H & _).
    apply H; declared.
Defined.

(** On these diffs the assertions are reached: the calls made are those
    of the full path through each function, up to the second read or to
    [ForceNew]. *)
Lemma customize_diff_total_paths :
  diff.trace CustomizeDiffValidateClusterAZMode examples.clusterCrossAzOneNode
  = [diff.CallGetOk "az_mode"; diff.CallGetOk "num_cache_nodes"]
  ∧ diff.trace CustomizeDiffValidateClusterNumCacheNodes examples.clusterRedisTwoNodes
    = [diff.CallGetOk "engine"; diff.CallGetOk "num_cache_nodes"]
  ∧ diff.trace CustomizeDiffClusterMemcachedNodeType examples.clusterMemcachedResized
    = [diff.CallId; diff.CallHasChange "node_type"; diff.CallGetOk "engine";
       diff.CallForceNew "node_type"]
  ∧ diff.trace CustomizeDiffValidateClusterMemcachedSnapshotIdentifier
      examples.clusterMemcachedWithSnapshot
    = [diff.CallGetOk "engine"; diff.CallGetOk "final_snapshot_identifier"]
  ∧ diff.trace CustomizeDiffValidateReplicationGroupAutomaticFailover
      examples.replicationGroupMultiAz
    = [diff.CallGet "multi_az_enabled"; diff.CallGet "automatic_failover_enabled"]
  ∧ diff.trace
      (CustomizeDiffValidateTransitEncryptionEnabled
         examples.sampleNormalize examples.samplePrereleases)
      examples.clusterMemcachedEncrypted
    = [diff.CallGetOk "transit_encryption_enabled"; diff.CallGet "engine";
       diff.CallGetOk "engine_version"].
Proof. split_and!; vm_compute; reflexivity. Qed.

(** None of these diffs declares all eight keys. *)
Lemma shaped_diffs_not_all_declared :
  ¬ DeclaredTypes examples.clusterCrossAzOneNode
  ∧ ¬ DeclaredTypes examples.replicationGroupMultiAz.
Proof.
  split.
  - intros (_ & _ & _ & _ & _ & Hm & _). vm_compute in Hm. discriminate.
  - intros (Haz & _). vm_compute in Haz. discriminate.
Qed.

(** Without the declared types an assertion can panic. *)
Lemma engine_as_int_panics :
  diff.result CustomizeDiffValidateClusterNumCacheNodes examples.engineAsInt = Panic.
Proof. vm_compute. reflexivity. Qed.

End elasticache_spec.

(** ** Which functions touch the diff *)

Module frame.

Import schema diff spec.
#[local] Open Scope list_scope.

Section Confined.

Variable allowed : Call → bool.

Lemma Confined_ret {A} (a : A) : Confined allowed (ret a).
Proof. intros w. exists []. by rewrite app_nil_r. Qed.

Lemma Confined_panic {A} : Confined allowed (@panic A).
Proof. intros w. exists []. by rewrite app_nil_r. Qed.

Lemma Confined_bind {A B} (m : M A) (k : A → M B) :
  Confined allowed m → (∀ a, Confined allowed (k a)) → Confined allowed (bind m k).
Proof.
  intros Hm Hk w. unfold bind.
  destruct (Hm w) as (cs & Hcs & Hall & Hro).
  destruct (m w) as [[a|] w'] eqn:E; cbn in *; [|by exists cs].
  destruct (Hk a w') as (cs' & Hcs' & Hall' & Hro').
  exists (cs ++ cs'). rewrite Hcs', Hcs, app_assoc, !forallb_app.
  split_and!; [done|by rewrite Hall, Hall'|].
  intros [H1 H2]%andb_true_iff. by rewrite Hro', Hro.
Qed.

Lemma Confined_query {A} (c : Call) (f : ResourceDiff → A) :
  allowed c = true → Confined allowed (query c f).
Proof. intros Hc w. exists [c]. cbn. by rewrite Hc. Qed.

Lemma Confined_ForceNew key :
  allowed (CallForceNew key) = true → Confined allowed (ForceNew key).
Proof.
  intros Hc w. exists [CallForceNew key]. unfold ForceNew.
  destruct (schema.ForceNew (target w) key). cbn. by rewrite Hc.
Qed.

Lemma Confined_as_string v : Confined allowed (as_string v).
Proof. destruct v; apply Confined_ret || apply Confined_panic. Qed.

Lemma Confined_as_int v : Confined allowed (as_int v).
Proof. destruct v; apply Confined_ret || apply Confined_panic. Qed.

Lemma Confined_as_bool v : Confined allowed (as_bool v).
Proof. destruct v; apply Confined_ret || apply Confined_panic. Qed.

Lemma Confined_orelse b m : Confined allowed m → Confined allowed (b ||| m).
Proof. destruct b; [intros _; apply Confined_ret|done]. Qed.

Lemma Confined_andalso b m : Confined allowed m → Confined allowed (b &&& m).
Proof. destruct b; [done|intros _; apply Confined_ret]. Qed.

End Confined.

Create HintDb confined discriminated.
#[export] Hint Resolve Confined_ret Confined_panic Confined_as_string
  Confined_as_int Confined_as_bool : confined.

(** Every call must be shown allowed: the readers by evaluation. *)
Ltac confined :=
  repeat first
    [ progress eauto with confined
    | apply Confined_bind; [|intros]
    | apply Confined_orelse
    | apply Confined_andalso
    | apply Confined_query; reflexivity
    | apply Confined_ForceNew; reflexivity
    | match goal with
      | |- Confined _ (match ?x with _ => _ end) => destruct x
      end ].

Import elasticache.

Lemma AZMode_confined : Confined readOnly CustomizeDiffValidateClusterAZMode.
Proof. unfold CustomizeDiffValidateClusterAZMode, GetOk. confined. Qed.

Lemma NumCacheNodes_confined :
  Confined readOnly CustomizeDiffValidateClusterNumCacheNodes.
Proof. unfold CustomizeDiffValidateClusterNumCacheNodes, GetOk. confined. Qed.

Lemma SnapshotIdentifier_confined :
  Confined readOnly CustomizeDiffValidateClusterMemcachedSnapshotIdentifier.
Proof.
  unfold CustomizeDiffValidateClusterMemcachedSnapshotIdentifier, GetOk. confined.
Qed.

Lemma AutomaticFailover_confined :
  Confined readOnly CustomizeDiffValidateReplicationGroupAutomaticFailover.
Proof.
  unfold CustomizeDiffValidateReplicationGroupAutomaticFailover, Get. confined.
Qed.

Lemma TransitEncryption_confined normalizeEngineVersion cmp :
  Confined readOnly
    (CustomizeDiffValidateTransitEncryptionEnabled normalizeEngineVersion cmp).
Proof.
  unfold CustomizeDiffValidateTransitEncryptionEnabled, GetOk, Get. confined.
Qed.

Lemma MemcachedNodeType_confined :
  Confined readOrForceNodeType CustomizeDiffClusterMemcachedNodeType.
Proof.
  unfold CustomizeDiffClusterMemcachedNodeType, GetOk, Id, HasChange. confined.
Qed.

(** From an empty log: the trace is allowed throughout, and a read-only
    computation hands the diff back as it got it. *)
Lemma Confined_run allowed {A} (m : M A) d :
  Confined allowed m →
  forallb allowed (trace m d) = true
  ∧ (forallb readOnly (trace m d) = true → after m d = d).
Proof.
  intros Hm. unfold trace, after, run.
  destruct (Hm (mkWorld d [])) as (cs & -> & Hall & Hro). done.
Qed.

Lemma Confined_readOnly_run {A} (m : M A) d :
  Confined readOnly m → after m d = d ∧ forallb readOnly (trace m d) = true.
Proof. intros Hm. destruct (Confined_run readOnly m d Hm). auto. Qed.

(** Resizing an existing memcached cluster does change the diff. *)
Lemma MemcachedNodeType_mutates :
  after CustomizeDiffClusterMemcachedNodeType examples.memcachedResized
  ≠ examples.memcachedResized.
Proof.
  intros H. apply (f_equal forcedNewKeys) in H. vm_compute in H. discriminate.
Qed.

(** C10. The five validators only read the diff: whatever they return,
    every call they make is a read and the diff is handed back unchanged.
    [CustomizeDiffClusterMemcachedNodeType] is the one function that can
    change it, and the only mutating call it makes is [ForceNew] on
    node_type. *)
Theorem validators_only_read
    (normalizeEngineVersion : string → gversion.Version + error)
    (cmp : string → string → Z) (d : ResourceDiff) :
  let untouched (m : M (option error)) :=
    after m d = d ∧ forallb readOnly (trace m d) = true in
  untouched CustomizeDiffValidateClusterAZMode
  ∧ untouched CustomizeDiffValidateClusterNumCacheNodes
  ∧ untouched CustomizeDiffValidateClusterMemcachedSnapshotIdentifier
  ∧ untouched CustomizeDiffValidateReplicationGroupAutomaticFailover
  ∧ untouched (CustomizeDiffValidateTransitEncryptionEnabled normalizeEngineVersion cmp)
  ∧ forallb readOrForceNodeType (trace CustomizeDiffClusterMemcachedNodeType d) = true
  ∧ (after CustomizeDiffClusterMemcachedNodeType d = d
     ∨ CallForceNew "node_type" ∈ trace CustomizeDiffClusterMemcachedNodeType d)
  ∧ ∃ d', after CustomizeDiffClusterMemcachedNodeType d' ≠ d'.
Proof.
  intros untouched. subst untouched. cbn beta.
  split_and!;
    try (apply Confined_readOnly_run;
         auto using AZMode_confined, NumCacheNodes_confined,
           SnapshotIdentifier_confined, AutomaticFailover_confined,
           TransitEncryption_confined).
  - apply (Confined_run _ _ d MemcachedNodeType_confined).
  - destruct (Confined_run _ _ d MemcachedNodeType_confined) as [Hall Hro].
    destruct (forallb readOnly (trace CustomizeDiffClusterMemcachedNodeType d))
      eqn:Hr; [left; auto|right].
    apply not_true_iff_false in Hr. rewrite forallb_forall in Hr.
    rewrite forallb_forall in Hall.
    destruct (decide (CallForceNew "node_type"
                      ∈ trace CustomizeDiffClusterMemcachedNodeType d))
      as [|Hnot]; [done|].
    destruct Hr. intros c Hc. specialize (Hall c Hc).
    unfold readOrForceNodeType in Hall.
    apply orb_true_iff in Hall as [?|Heq]; [done|].
    apply bool_decide_eq_true in Heq. subst c.
    destruct Hnot. by apply list_elem_of_In.
  - exists examples.memcachedResized. apply MemcachedNodeType_mutates.
Qed.

End frame.

(** ** The sink destroy check *)

Module oam_spec.

Import oam_test spec.
#[local] Open Scope list_scope.

Section Destroy.

Variable range : gmap string ResourceState → list (string * ResourceState).
Variable GetSink : GetSinkInput → option error.
Variable create_Error : string → string → string → string → error → error.
Variables service action resource : string.

Let loop := rangeResources GetSink create_Error service action resource.

(** Entries of another type are passed over. *)
Lemma rangeResources_skip before rest :
  Forall (λ e, isSink e.2 = false) before →
  loop (before ++ rest) = loop rest.
Proof.
  induction 1 as [|[name rs] before Hrs _ IH]; [done|].
  cbn in *. unfold isSink in Hrs. by rewrite Hrs.
Qed.

(** The first sink met ends the loop. *)
Lemma rangeResources_sink name rs rest :
  isSink rs = true → loop ((name, rs) :: rest)
  = verdict GetSink create_Error service action resource rs.
Proof.
  intros Hrs. unfold isSink in Hrs. cbn. rewrite Hrs. cbn. unfold verdict.
  destruct (GetSink _) as [err|]; [|done].
  by destruct (errors_As_ResourceNotFoundException err).
Qed.

Lemma rangeResources_none entries :
  Forall (λ e, isSink e.2 = false) entries → loop entries = (None, []).
Proof.
  intros H. rewrite <- (app_nil_r entries). by rewrite rangeResources_skip.
Qed.

(** C8. Whatever order [range] takes over the resources of the root
    module, [testAccCheckSinkDestroy] is decided by the first resource of
    type aws_oam_sink it meets: with no such resource it returns nil
    without a call; otherwise it calls [GetSink] once, on that resource's
    id, and returns nil for a ResourceNotFoundException, the call's error
    for any other error, and the "not destroyed" error when the call
    succeeds.  Resources after that one are not looked at. *)
Theorem sink_destroy_first_sink_only (s : State) :
  VisitsAll range →
  let out := testAccCheckSinkDestroy range GetSink create_Error
               service action resource s in
  ((∀ name rs, Resources (RootModule s) !! name = Some rs → isSink rs = false) →
   out = (None, []))
  ∧ (∀ before name rs rest,
       range (Resources (RootModule s)) = before ++ (name, rs) :: rest →
       Forall (λ e, isSink e.2 = false) before →
       isSink rs = true →
       let input := mkGetSinkInput (ID (Primary rs)) in
       snd out = [input]
       ∧ (GetSink input = None →
          fst out = Some (create_Error service action resource (ID (Primary rs))
                            (errors_New "not destroyed")))
       ∧ (∀ err, GetSink input = Some err →
                 errors_As_ResourceNotFoundException err = true → fst out = None)
       ∧ (∀ err, GetSink input = Some err →
                 errors_As_ResourceNotFoundException err = false →
                 fst out = Some err)).
Proof.
  intros Hall out. subst out. unfold testAccCheckSinkDestroy. fold loop. split.
  - intros Hnone. apply rangeResources_none, Forall_forall.
    intros [name rs] Hin. cbn.
    rewrite (Hall (Resources (RootModule s))) in Hin.
    apply elem_of_map_to_list in Hin. eauto.
  - intros before name rs rest Heq Hbefore Hrs. cbn zeta.
    rewrite Heq, (rangeResources_skip _ _ Hbefore), (rangeResources_sink _ _ _ Hrs).
    unfold verdict. cbn [fst snd]. split_and!; [done|..].
    + by intros ->.
    + by intros err -> ->.
    + by intros err -> ->.
Qed.

End Destroy.

(** With one sink gone and one left, the check passes when [range] meets
    the deleted one first. *)
Lemma sink_destroy_first_sink_only_witness :
  testAccCheckSinkDestroy examples.forwards examples.onlyBLeft
    examples.sampleCreateError "ObservabilityAccessManager" "checking destroyed"
    "Sink" examples.twoSinks
  = (None, [mkGetSinkInput "sink-a"]).
Proof.
  assert (Hall : VisitsAll examples.forwards) by (intros m; reflexivity).
  destruct (sink_destroy_first_sink_only examples.forwards examples.onlyBLeft
              examples.sampleCreateError "ObservabilityAccessManager"
              "checking destroyed" "Sink" examples.twoSinks Hall) as [_ Hfirst].
  destruct (Hfirst [] "aws_oam_sink.a" examples.sinkA
              [("aws_oam_sink.b", examples.sinkB); ("aws_sns_topic.t", examples.topic)])
    as (Hcalls & _ & Hgone & _).
  - vm_compute. reflexivity.
  - constructor.
  - reflexivity.
  - apply injective_projections; [|exact Hcalls].
    apply (Hgone (wrapError "operation error OAM: GetSink"
                    (ResourceNotFoundException "sink-a"))); reflexivity.
Defined.

(** On that same state the answer changes with the order [range] takes:
    met first, the sink that is left makes the check fail. *)
Lemma sink_destroy_order_matters :
  VisitsAll examples.backwards
  ∧ fst (testAccCheckSinkDestroy examples.backwards examples.onlyBLeft
           examples.sampleCreateError "ObservabilityAccessManager"
           "checking destroyed" "Sink" examples.twoSinks)
    ≠ fst (testAccCheckSinkDestroy examples.forwards examples.onlyBLeft
             examples.sampleCreateError "ObservabilityAccessManager"
             "checking destroyed" "Sink" examples.twoSinks).
Proof.
  split.
  - intros m. unfold examples.backwards. apply reverse_Permutation.
  - vm_compute. discriminate.
Qed.

End oam_spec.

(** * Further properties *)

(** ** Lists visited up to a first hit *)

Module lists.

#[local] Open Scope list_scope.

(** Either no element is a hit, or the list splits at its first hit. *)
Lemma first_split {A} (P : A → bool) (l : list A) :
  Forall (λ x, P x = false) l
  ∨ ∃ before x rest,
      l = before ++ x :: rest ∧ Forall (λ x, P x = false) before ∧ P x = true.
Proof.
  induction l as [|a l IH]; [by left|].
  destruct (P a) eqn:Ha.
  - right. exists [], a, l. by repeat split.
  - destruct IH as [IH|(before & x & rest & -> & Hb & Hx)].
    + left. by constructor.
    + right. exists (a :: before), x, rest. repeat split; [|done]. by constructor.
Qed.

(** An entry that a visit of the whole map meets is an entry of the map. *)
Lemma visited_lookup {V} (range : gmap string V → list (string * V)) m name v :
  (∀ m, range m ≡ₚ map_to_list m) → (name, v) ∈ range m ↔ m !! name = Some v.
Proof. intros Hall. by rewrite (Hall m), elem_of_map_to_list. Qed.

End lists.

(** ** The sink existence check *)

Module oam_checks.

Import oam_test spec.
#[local] Open Scope list_scope.

Section Exists.

Variable GetSink : GetSinkInput → GetSinkOutput + error.
Variable create_Error : string → string → string → string → error → error.
Variables service action resource : string.

Let check := testAccCheckSinkExists GetSink create_Error service action resource.

(** The four ways the check can go. *)
Lemma SinkExists_cases name sink s :
  (Resources (RootModule s) !! name = None
   ∧ check name sink s =
     (Some (create_Error service action resource name (errors_New "not found")),
      sink, []))
  ∨ (∃ rs, Resources (RootModule s) !! name = Some rs ∧ ID (Primary rs) = ""
           ∧ check name sink s =
             (Some (create_Error service action resource name (errors_New "not set")),
              sink, []))
  ∨ (∃ rs err, Resources (RootModule s) !! name = Some rs ∧ ID (Primary rs) ≠ ""
               ∧ GetSink (sinkInput rs) = inr err
               ∧ check name sink s =
                 (Some (create_Error service action resource (ID (Primary rs)) err),
                  sink, [sinkInput rs]))
  ∨ (∃ rs resp, Resources (RootModule s) !! name = Some rs ∧ ID (Primary rs) ≠ ""
                ∧ GetSink (sinkInput rs) = inl resp
                ∧ check name sink s = (None, resp, [sinkInput rs])).
Proof.
  subst check. unfold testAccCheckSinkExists, sinkInput.
  destruct (Resources (RootModule s) !! name) as [rs|]; [|by left].
  right. destruct (String.eqb_spec (ID (Primary rs)) "") as [Hid|Hid]; [left; eauto|].
  right. destruct (GetSink _) as [resp|err] eqn:E; [right|left]; eauto 10.
Qed.

(** X1. [testAccCheckSinkExists] returns nil exactly when the state has a
    resource under the given name, its id is not empty and [GetSink] on
    that id succeeds; the output of the call is then stored behind the
    sink pointer.  Whenever an error is returned the value behind the
    pointer is left as it was. *)
Theorem sink_exists_passes_iff name sink s :
  let out := testAccCheckSinkExists GetSink create_Error service action resource
               name sink s in
  (out.1.1 = None ↔
   ∃ rs resp, Resources (RootModule s) !! name = Some rs ∧ ID (Primary rs) ≠ ""
              ∧ GetSink (sinkInput rs) = inl resp)
  ∧ (∀ rs resp, Resources (RootModule s) !! name = Some rs →
                GetSink (sinkInput rs) = inl resp → out.1.1 = None → out.1.2 = resp)
  ∧ (out.1.1 ≠ None → out.1.2 = sink).
Proof.
  intros out. subst out. fold check.
  destruct (SinkExists_cases name sink s)
    as [[Hl ->]|[(rs & Hl & Hid & ->)|[(rs & err & Hl & Hid & Hg & ->)
                                       |(rs & resp & Hl & Hid & Hg & ->)]]];
    cbn; (split_and!; [split|..]); try done;
    try (intros (rs' & resp' & Hl' & Hid' & Hg'); congruence);
    try (intros rs' resp' Hl' Hg'; congruence); eauto.
Qed.

(** X2. Every error of [testAccCheckSinkExists] is built by [create.Error]
    for the existence action: with the resource name and "not found" when
    the name is not in the state, with the resource name and "not set"
    when the id is empty, and with the id and the error of [GetSink] when
    the call fails.  The error of [GetSink] is never returned bare. *)
Theorem sink_exists_error_cases name sink s :
  let out := testAccCheckSinkExists GetSink create_Error service action resource
               name sink s in
  let failure i cause := Some (create_Error service action resource i cause) in
  (Resources (RootModule s) !! name = None →
   out.1.1 = failure name (errors_New "not found"))
  ∧ (∀ rs, Resources (RootModule s) !! name = Some rs →
       (ID (Primary rs) = "" → out.1.1 = failure name (errors_New "not set"))
       ∧ (∀ err, ID (Primary rs) ≠ "" → GetSink (sinkInput rs) = inr err →
                 out.1.1 = failure (ID (Primary rs)) err))
  ∧ (∀ e, out.1.1 = Some e →
       ∃ i cause, e = create_Error service action resource i cause
                  ∧ (cause = errors_New "not found"
                     ∨ cause = errors_New "not set"
                     ∨ ∃ input, input ∈ out.2 ∧ GetSink input = inr cause)).
Proof.
  intros out failure. subst out failure. fold check.
  destruct (SinkExists_cases name sink s)
    as [[Hl ->]|[(rs & Hl & Hid & ->)|[(rs & err & Hl & Hid & Hg & ->)
                                       |(rs & resp & Hl & Hid & Hg & ->)]]];
    cbn; split_and!; try congruence.
  - intros e [= <-]. eauto 10.
  - intros rs' Hl'. assert (rs' = rs) as -> by congruence. split; [done|congruence].
  - intros e [= <-]. eauto 10.
  - intros rs' Hl'. assert (rs' = rs) as -> by congruence.
    split; [congruence|]. intros err' _ Hg'. congruence.
  - intros e [= <-]. eexists _, _. split; [done|]. right; right.
    exists (sinkInput rs). split; [set_solver|done].
  - intros rs' Hl'. assert (rs' = rs) as -> by congruence.
    split; [congruence|]. intros err' _ Hg'. congruence.
Qed.

(** X3. [testAccCheckSinkExists] calls [GetSink] at most once, only for
    the id of the resource under the given name and never with an empty
    identifier; it makes no call when the name is not in the state or the
    id is empty. *)
Theorem sink_exists_calls name sink s :
  let out := testAccCheckSinkExists GetSink create_Error service action resource
               name sink s in
  (length out.2 ≤ 1)%nat
  ∧ (∀ input, input ∈ out.2 →
       Identifier input ≠ ""
       ∧ ∃ rs, Resources (RootModule s) !! name = Some rs ∧ input = sinkInput rs)
  ∧ (out.2 = [] ↔
     Resources (RootModule s) !! name = None
     ∨ ∃ rs, Resources (RootModule s) !! name = Some rs ∧ ID (Primary rs) = "").
Proof.
  intros out. subst out. fold check.
  destruct (SinkExists_cases name sink s)
    as [[Hl ->]|[(rs & Hl & Hid & ->)|[(rs & err & Hl & Hid & Hg & ->)
                                       |(rs & resp & Hl & Hid & Hg & ->)]]];
    cbn; (split_and!; [lia| |split]); try done; eauto;
    try (intros input Hin; by apply elem_of_nil in Hin);
    try (intros input ->%list_elem_of_singleton; eauto);
    try (intros [?|(rs' & Hl' & Hid')]; congruence).
Qed.

(** X4. [testAccCheckSinkExists] looks at nothing but the id of the
    resource under the given name: two states that agree on it get the
    same answer, whatever the type of that resource and whatever other
    resources they hold. *)
Theorem sink_exists_local name sink s s' :
  (ID ∘ Primary) <$> Resources (RootModule s) !! name
  = (ID ∘ Primary) <$> Resources (RootModule s') !! name →
  testAccCheckSinkExists GetSink create_Error service action resource name sink s
  = testAccCheckSinkExists GetSink create_Error service action resource name sink s'.
Proof.
  unfold testAccCheckSinkExists.
  destruct (Resources (RootModule s) !! name) as [rs|],
           (Resources (RootModule s') !! name) as [rs'|]; cbn; try done.
  by intros [= ->].
Qed.

End Exists.

(** ** The destroy check on the whole state *)

Section Destroy.

Variable range : gmap string ResourceState → list (string * ResourceState).
Variable GetSink : GetSinkInput → option error.
Variable create_Error : string → string → string → string → error → error.
Variables service action resource : string.

Let loop := rangeResources GetSink create_Error service action resource.

(** The loop either finds no sink, or is decided by the first one. *)
Lemma rangeResources_first entries :
  (Forall (λ e, isSink e.2 = false) entries ∧ loop entries = (None, []))
  ∨ ∃ before name rs rest,
      entries = before ++ (name, rs) :: rest ∧ isSink rs = true
      ∧ loop entries = verdict GetSink create_Error service action resource rs.
Proof.
  destruct (lists.first_split (λ e, isSink e.2) entries)
    as [Hnone|(before & [name rs] & rest & -> & Hbefore & Hrs)].
  - left. split; [done|]. by apply oam_spec.rangeResources_none.
  - right. exists before, name, rs, rest. split_and!; [done..|]. subst loop.
    by rewrite (oam_spec.rangeResources_skip _ _ _ _ _ _ _ Hbefore),
               (oam_spec.rangeResources_sink _ _ _ _ _ _ _ _ Hrs).
Qed.

(** X5. Whatever order [range] takes, the answer of
    [testAccCheckSinkDestroy] comes from a sink of the state: an error is
    either the "not destroyed" error for a sink that [GetSink] finds or
    the error [GetSink] gives for a sink, other than a
    ResourceNotFoundException; nil means that the state has no sink or
    that one of its sinks (not necessarily every one) is gone.  At most
    one call is made, and it asks for a sink of the state. *)
Theorem sink_destroy_sound (s : State) :
  VisitsAll range →
  let out := testAccCheckSinkDestroy range GetSink create_Error
               service action resource s in
  let sink name rs := Resources (RootModule s) !! name = Some rs ∧ isSink rs = true in
  (fst out = None →
   (∀ name rs, ¬ sink name rs) ∨ ∃ name rs, sink name rs ∧ sinkGone GetSink rs)
  ∧ (∀ e, fst out = Some e →
       ∃ name rs, sink name rs
         ∧ ((GetSink (sinkInput rs) = None
             ∧ e = create_Error service action resource (ID (Primary rs))
                     (errors_New "not destroyed"))
            ∨ (GetSink (sinkInput rs) = Some e
               ∧ errors_As_ResourceNotFoundException e = false)))
  ∧ (length (snd out) ≤ 1)%nat
  ∧ (∀ input, input ∈ snd out → ∃ name rs, sink name rs ∧ input = sinkInput rs).
Proof.
  intros Hall out sink. subst out sink. unfold testAccCheckSinkDestroy. fold loop.
  destruct (rangeResources_first (range (Resources (RootModule s))))
    as [[Hnone ->]|(before & name & rs & rest & Heq & Hrs & ->)]; cbn.
  - split_and!; [|done|lia|by intros input ?%elem_of_nil].
    intros _. left. intros name rs [Hl Hrs].
    apply (lists.visited_lookup range _ _ _ Hall) in Hl.
    rewrite Forall_forall in Hnone. specialize (Hnone _ Hl). cbn in Hnone. congruence.
  - assert (Hl : Resources (RootModule s) !! name = Some rs).
    { apply (lists.visited_lookup range _ _ _ Hall). rewrite Heq. set_solver. }
    fold (sinkInput rs). unfold sinkGone.
    destruct (GetSink (sinkInput rs)) as [err|] eqn:E;
      [destruct (errors_As_ResourceNotFoundException err) eqn:Eas|];
      (split_and!; [..|lia|intros input ->%list_elem_of_singleton; eauto]);
      try done.
    + intros _. right. eauto 10.
    + intros e [= <-]. eauto 10.
    + intros e [= <-]. eauto 10.
Qed.

(** X6. When the sinks of the state agree the order does not matter: if
    every sink is gone the destroy check returns nil, and if the state has
    a sink and [GetSink] finds every sink, it returns the "not destroyed"
    error for one of them after a single call. *)
Theorem sink_destroy_unanimous (s : State) :
  VisitsAll range →
  let out := testAccCheckSinkDestroy range GetSink create_Error
               service action resource s in
  let sink name rs := Resources (RootModule s) !! name = Some rs ∧ isSink rs = true in
  ((∀ name rs, sink name rs → sinkGone GetSink rs) → fst out = None)
  ∧ ((∃ name rs, sink name rs) →
     (∀ name rs, sink name rs → GetSink (sinkInput rs) = None) →
     ∃ name rs, sink name rs
       ∧ out = (Some (create_Error service action resource (ID (Primary rs))
                        (errors_New "not destroyed")),
                [sinkInput rs])).
Proof.
  intros Hall out sink. subst out sink. unfold testAccCheckSinkDestroy. fold loop.
  destruct (rangeResources_first (range (Resources (RootModule s))))
    as [[Hnone ->]|(before & name & rs & rest & Heq & Hrs & ->)]; cbn.
  - split; [done|]. intros (name & rs & Hl & Hrs) _.
    apply (lists.visited_lookup range _ _ _ Hall) in Hl.
    rewrite Forall_forall in Hnone. specialize (Hnone _ Hl). cbn in Hnone. congruence.
  - assert (Hl : Resources (RootModule s) !! name = Some rs).
    { apply (lists.visited_lookup range _ _ _ Hall). rewrite Heq. set_solver. }
    unfold verdict. fold (sinkInput rs). split.
    + intros Hgone. destruct (Hgone name rs (conj Hl Hrs)) as (err & -> & ->). done.
    + intros _ Hleft. exists name, rs. by rewrite (Hleft name rs (conj Hl Hrs)).
Qed.

End Destroy.

(** ** The two checks together *)

(** X7. On a state whose only sink is the resource under [name], the two
    checks exclude each other: if [testAccCheckSinkExists] passes for
    [name], then [testAccCheckSinkDestroy], asking the same service,
    returns the "not destroyed" error for that sink, whatever order
    [range] takes. *)
Theorem sink_exists_excludes_destroy
    (range : gmap string ResourceState → list (string * ResourceState))
    (GetSink : GetSinkInput → GetSinkOutput + error)
    (create_Error : string → string → string → string → error → error)
    (service checkingExistence checkingDestroyed resource : string)
    (name : string) (sink : GetSinkOutput) (s : State) (rs : ResourceState) :
  VisitsAll range →
  Resources (RootModule s) !! name = Some rs →
  isSink rs = true →
  (∀ name' rs', Resources (RootModule s) !! name' = Some rs' →
                isSink rs' = true → name' = name) →
  (testAccCheckSinkExists GetSink create_Error service checkingExistence resource
     name sink s).1.1 = None →
  testAccCheckSinkDestroy range (λ input, errorOnly (GetSink input)) create_Error
    service checkingDestroyed resource s
  = (Some (create_Error service checkingDestroyed resource (ID (Primary rs))
             (errors_New "not destroyed")),
     [sinkInput rs]).
Proof.
  intros Hall Hl Hrs Honly Hpass.
  assert (Hfound : ∃ resp, GetSink (sinkInput rs) = inl resp).
  { destruct (SinkExists_cases GetSink create_Error service checkingExistence
                resource name sink s)
      as [[_ E]|[(? & _ & _ & E)|[(? & ? & _ & _ & _ & E)
                                  |(rs' & resp & Hl' & _ & Hg & _)]]];
      try (rewrite E in Hpass; discriminate).
    assert (rs' = rs) as -> by congruence. eauto. }
  destruct Hfound as [resp Hg].
  unfold testAccCheckSinkDestroy.
  destruct (rangeResources_first (λ input, errorOnly (GetSink input)) create_Error
              service checkingDestroyed resource (range (Resources (RootModule s))))
    as [[Hnone _]|(before & name' & rs' & rest & Heq & Hrs' & ->)].
  - apply (lists.visited_lookup range _ _ _ Hall) in Hl.
    rewrite Forall_forall in Hnone. specialize (Hnone _ Hl). cbn in Hnone. congruence.
  - assert (Hl' : Resources (RootModule s) !! name' = Some rs').
    { apply (lists.visited_lookup range _ _ _ Hall). rewrite Heq. set_solver. }
    assert (name' = name) as -> by eauto.
    assert (rs' = rs) as -> by congruence.
    unfold verdict. fold (sinkInput rs). by rewrite Hg.
Qed.

(** ** The theorems at sample inputs *)

(** The sink of the one-sink state is seen the same among two sinks. *)
Lemma sink_exists_local_witness :
  testAccCheckSinkExists examples.sinkService examples.sampleCreateError
    "ObservabilityAccessManager" "checking existence" "Sink"
    "aws_oam_sink.b" examples.noOutput examples.oneSink
  = testAccCheckSinkExists examples.sinkService examples.sampleCreateError
      "ObservabilityAccessManager" "checking existence" "Sink"
      "aws_oam_sink.b" examples.noOutput examples.twoSinks.
Proof. apply sink_exists_local. vm_compute. reflexivity. Defined.

(** With [sink-a] gone and met first the destroy check returns nil, and
    the state does hold a sink that is gone. *)
Lemma sink_destroy_sound_witness :
  ∃ name rs,
    (Resources (RootModule examples.twoSinks) !! name = Some rs ∧ isSink rs = true)
    ∧ sinkGone examples.onlyBLeft rs.
Proof.
  assert (Hall : VisitsAll examples.forwards) by (intros m; reflexivity).
  destruct (sink_destroy_sound examples.forwards examples.onlyBLeft
              examples.sampleCreateError "ObservabilityAccessManager"
              "checking destroyed" "Sink" examples.twoSinks Hall) as (Hnil & _).
  destruct Hnil as [Hnone|Hgone]; [vm_compute; reflexivity| |exact Hgone].
  destruct (Hnone "aws_oam_sink.a" examples.sinkA). split; vm_compute; reflexivity.
Defined.

(** With both sinks still there the destroy check fails for one of them. *)
Lemma sink_destroy_unanimous_witness :
  ∃ name rs,
    (Resources (RootModule examples.twoSinks) !! name = Some rs ∧ isSink rs = true)
    ∧ testAccCheckSinkDestroy examples.forwards (λ _, None)
        examples.sampleCreateError "ObservabilityAccessManager"
        "checking destroyed" "Sink" examples.twoSinks
      = (Some (examples.sampleCreateError "ObservabilityAccessManager"
                 "checking destroyed" "Sink" (ID (Primary rs))
                 (errors_New "not destroyed")),
         [sinkInput rs]).
Proof.
  assert (Hall : VisitsAll examples.forwards) by (intros m; reflexivity).
  destruct (sink_destroy_unanimous examples.forwards (λ _, None)
              examples.sampleCreateError "ObservabilityAccessManager"
              "checking destroyed" "Sink" examples.twoSinks Hall) as [_ Hleft].
  apply Hleft.
  - exists "aws_oam_sink.a", examples.sinkA. split; vm_compute; reflexivity.
  - intros name rs _. reflexivity.
Defined.

(** The sink of the one-sink state exists, so its destroy check fails. *)
Lemma sink_exists_excludes_destroy_witness :
  testAccCheckSinkDestroy examples.forwards
    (λ input, errorOnly (examples.sinkService input))
    examples.sampleCreateError "ObservabilityAccessManager"
    "checking destroyed" "Sink" examples.oneSink
  = (Some (examples.sampleCreateError "ObservabilityAccessManager"
             "checking destroyed" "Sink" "sink-b" (errors_New "not destroyed")),
     [mkGetSinkInput "sink-b"]).
Proof.
  apply (sink_exists_excludes_destroy examples.forwards examples.sinkService
           examples.sampleCreateError "ObservabilityAccessManager"
           "checking existence" "checking destroyed" "Sink"
           "aws_oam_sink.b" examples.noOutput examples.oneSink examples.sinkB).
  - intros m. reflexivity.
  - vm_compute. reflexivity.
  - reflexivity.
  - intros name' rs' Hl Hs. cbn in Hl.
    apply lookup_insert_Some in Hl as [[<- <-]|[_ Hl]]; [done|].
    apply lookup_insert_Some in Hl as [[<- <-]|[_ Hl]]; [discriminate|].
    by rewrite lookup_empty in Hl.
  - vm_compute. reflexivity.
Defined.

End oam_checks.

(** ** The default route table destroy check *)

Module route_table_spec.

Import aws_test spec.
#[local] Open Scope list_scope.

Lemma describeInputs_nil : describeInputs [] = [].
Proof. done. Qed.

Lemma describeInputs_cons name rs entries :
  describeInputs ((name, rs) :: entries)
  = if isDefaultRouteTable rs then describeInput rs :: describeInputs entries
    else describeInputs entries.
Proof.
  unfold describeInputs. cbn [fmap list_fmap snd]. rewrite filter_cons.
  destruct (decide (isDefaultRouteTable rs = true)) as [->|Hno]; [done|].
  by apply not_true_is_false in Hno as ->.
Qed.

Lemma describeInputs_app before rest :
  describeInputs (before ++ rest) = describeInputs before ++ describeInputs rest.
Proof. unfold describeInputs. by rewrite fmap_app, filter_app, fmap_app. Qed.

Lemma describeInputs_Permutation entries entries' :
  entries ≡ₚ entries' → describeInputs entries ≡ₚ describeInputs entries'.
Proof. unfold describeInputs. by intros ->. Qed.

Lemma describeInputs_elem input entries :
  input ∈ describeInputs entries →
  ∃ name rs, (name, rs) ∈ entries ∧ isDefaultRouteTable rs = true
             ∧ input = describeInput rs.
Proof.
  unfold describeInputs.
  intros (rs & -> & [Hrs ([name rs'] & -> & Hin)%list_elem_of_fmap]%list_elem_of_filter)
           %list_elem_of_fmap.
  eauto.
Qed.

Section Destroy.

Variable range : gmap string ResourceState → list (string * ResourceState).
Variable DescribeRouteTables :
  DescribeRouteTablesInput → DescribeRouteTablesOutput + error.
Variable isAWSErr : error → string → string → bool.

Let loop := rangeResources DescribeRouteTables isAWSErr.
Let gone := answersNotFound DescribeRouteTables isAWSErr.
Let passed := passedOver DescribeRouteTables isAWSErr.

(** What the check answers for a table that ends the loop. *)
Let decision (rs : ResourceState) : option error :=
  match DescribeRouteTables (describeInput rs) with
  | inl resp => if (0 <? length (RouteTables resp))%nat then Some errStillExist else None
  | inr err => Some err
  end.

(** Past resources of another type and tables answered as not found the
    loop goes on, having asked for each of these tables. *)
Lemma routeTables_passed before rest :
  Forall (λ e, passed e.2 = true) before →
  loop (before ++ rest) = ((loop rest).1, describeInputs before ++ (loop rest).2).
Proof.
  induction 1 as [|[name rs] before Hrs _ IH];
    [rewrite describeInputs_nil; cbn; by destruct (loop rest)|].
  rewrite describeInputs_cons. cbn in *. fold loop. rewrite IH.
  subst passed gone. unfold passedOver, answersNotFound, isDefaultRouteTable in *.
  destruct (String.eqb (Type_ rs) "aws_default_route_table"); cbn in *; [|done].
  fold (describeInput rs).
  destruct (DescribeRouteTables (describeInput rs)) as [resp|err]; [done|].
  by rewrite Hrs.
Qed.

(** A default route table with any other answer ends the loop. *)
Lemma routeTables_decisive name rs rest :
  isDefaultRouteTable rs = true → gone rs = false →
  loop ((name, rs) :: rest) = (decision rs, [describeInput rs]).
Proof.
  subst gone decision. unfold answersNotFound, isDefaultRouteTable, errStillExist.
  intros Hrs Hgone. cbn. rewrite Hrs. cbn. fold (describeInput rs).
  destruct (DescribeRouteTables (describeInput rs)) as [resp|err].
  - by destruct (length (RouteTables resp)).
  - by rewrite Hgone.
Qed.

(** The loop either passes over every entry, or is decided by the first
    default route table with another answer than not found. *)
Lemma routeTables_first entries :
  (Forall (λ e, passed e.2 = true) entries
   ∧ loop entries = (None, describeInputs entries))
  ∨ ∃ before name rs rest,
      entries = before ++ (name, rs) :: rest
      ∧ Forall (λ e, passed e.2 = true) before
      ∧ isDefaultRouteTable rs = true ∧ gone rs = false
      ∧ loop entries = (decision rs, describeInputs before ++ [describeInput rs]).
Proof.
  destruct (lists.first_split (λ e, negb (passed e.2)) entries)
    as [Hnone|(before & [name rs] & rest & -> & Hbefore & Hrs)].
  - left. assert (Hall : Forall (λ e, passed e.2 = true) entries).
    { eapply Forall_impl; [exact Hnone|]. intros e He. by apply negb_false_iff. }
    split; [done|].
    rewrite <- (app_nil_r entries) at 1. rewrite (routeTables_passed _ _ Hall).
    cbn. by rewrite app_nil_r.
  - right. exists before, name, rs, rest.
    assert (Hall : Forall (λ e, passed e.2 = true) before).
    { eapply Forall_impl; [exact Hbefore|]. intros e He. by apply negb_false_iff. }
    cbn in Hrs. apply negb_true_iff in Hrs. unfold passed, passedOver in Hrs.
    apply orb_false_iff in Hrs as [Ht%negb_false_iff Hg].
    split_and!; [done..|].
    by rewrite (routeTables_passed _ _ Hall), (routeTables_decisive _ _ _ Ht Hg).
Qed.

Lemma decision_cases rs :
  gone rs = false →
  (∃ resp, DescribeRouteTables (describeInput rs) = inl resp
           ∧ RouteTables resp ≠ [] ∧ decision rs = Some errStillExist)
  ∨ (∃ resp, DescribeRouteTables (describeInput rs) = inl resp
             ∧ RouteTables resp = [] ∧ decision rs = None)
  ∨ (∃ err, DescribeRouteTables (describeInput rs) = inr err
            ∧ isAWSErr err "InvalidRouteTableID.NotFound" "" = false
            ∧ decision rs = Some err).
Proof.
  subst gone decision. unfold answersNotFound. cbn.
  destruct (DescribeRouteTables (describeInput rs)) as [resp|err]; [|eauto 10].
  intros _. destruct (RouteTables resp) as [|t ts] eqn:E; cbn; [right; left|left];
    exists resp; by rewrite E.
Qed.

(** X8. [testAccCheckDefaultRouteTableDestroy] is decided by the first
    default route table, in the order [range] takes, for which
    [DescribeRouteTables] gives another answer than a not-found error: it
    returns "still exist." when the call succeeds with a route table, nil
    when it succeeds with none, and the error of the call otherwise.  It
    has then asked once for each default route table met so far, and for
    no resource after that one. *)
Theorem route_table_destroy_first_decisive (s : State) before name rs rest :
  range (Resources (RootModule s)) = before ++ (name, rs) :: rest →
  Forall (λ e, passedOver DescribeRouteTables isAWSErr e.2 = true) before →
  isDefaultRouteTable rs = true →
  answersNotFound DescribeRouteTables isAWSErr rs = false →
  let out := testAccCheckDefaultRouteTableDestroy range DescribeRouteTables isAWSErr s in
  snd out = describeInputs before ++ [describeInput rs]
  ∧ (∀ resp, DescribeRouteTables (describeInput rs) = inl resp →
       (RouteTables resp ≠ [] → fst out = Some errStillExist)
       ∧ (RouteTables resp = [] → fst out = None))
  ∧ (∀ err, DescribeRouteTables (describeInput rs) = inr err → fst out = Some err).
Proof.
  intros Heq Hbefore Hrs Hgone out. subst out.
  unfold testAccCheckDefaultRouteTableDestroy. fold loop.
  rewrite Heq, (routeTables_passed _ _ Hbefore), (routeTables_decisive _ _ _ Hrs Hgone).
  cbn [fst snd]. split; [done|].
  destruct (decision_cases rs Hgone)
    as [(resp & E & Hne & ->)|[(resp & E & He & ->)|(err & E & _ & ->)]];
    rewrite E; split; try done.
  - intros resp' [= <-]. done.
  - intros resp' [= <-]. done.
  - intros err' [= <-]. done.
Qed.

(** X9. When every default route table of the state is answered as not
    found, [testAccCheckDefaultRouteTableDestroy] returns nil after asking
    for each of them once: a not-found answer does not end the loop. *)
Theorem route_table_destroy_all_gone (s : State) :
  VisitsEvery range →
  (∀ name rs, Resources (RootModule s) !! name = Some rs →
              isDefaultRouteTable rs = true →
              answersNotFound DescribeRouteTables isAWSErr rs = true) →
  let out := testAccCheckDefaultRouteTableDestroy range DescribeRouteTables isAWSErr s in
  fst out = None
  ∧ snd out ≡ₚ describeInputs (map_to_list (Resources (RootModule s))).
Proof.
  intros Hall Hgone out. subst out.
  unfold testAccCheckDefaultRouteTableDestroy. fold loop.
  destruct (routeTables_first (range (Resources (RootModule s))))
    as [[_ ->]|(before & name & rs & rest & Heq & _ & Hrs & Hnot & _)].
  - split; [done|]. apply describeInputs_Permutation, Hall.
  - assert (Hl : Resources (RootModule s) !! name = Some rs).
    { apply (lists.visited_lookup range _ _ _ Hall). rewrite Heq. set_solver. }
    subst gone. rewrite (Hgone name rs Hl Hrs) in Hnot. done.
Qed.

(** X10. Whatever order [range] takes, the answer of
    [testAccCheckDefaultRouteTableDestroy] comes from a default route
    table of the state: "still exist." is returned for a table that
    [DescribeRouteTables] finds, any other error is the error of the call
    for a table and is not a not-found error; nil means that every
    default route table was answered as not found, or that for one of
    them the call succeeded with no route table. *)
Theorem route_table_destroy_sound (s : State) :
  VisitsEvery range →
  let out := testAccCheckDefaultRouteTableDestroy range DescribeRouteTables isAWSErr s in
  let table name rs :=
    Resources (RootModule s) !! name = Some rs ∧ isDefaultRouteTable rs = true in
  (∀ e, fst out = Some e →
     ∃ name rs, table name rs
       ∧ ((∃ resp, DescribeRouteTables (describeInput rs) = inl resp
                   ∧ RouteTables resp ≠ [] ∧ e = errStillExist)
          ∨ (DescribeRouteTables (describeInput rs) = inr e
             ∧ isAWSErr e "InvalidRouteTableID.NotFound" "" = false)))
  ∧ (fst out = None →
     (∀ name rs, table name rs →
                 answersNotFound DescribeRouteTables isAWSErr rs = true)
     ∨ ∃ name rs resp, table name rs
         ∧ DescribeRouteTables (describeInput rs) = inl resp
         ∧ RouteTables resp = []).
Proof.
  intros Hall out table. subst out table.
  unfold testAccCheckDefaultRouteTableDestroy. fold loop.
  destruct (routeTables_first (range (Resources (RootModule s))))
    as [[Hpassed ->]|(before & name & rs & rest & Heq & _ & Hrs & Hnot & ->)];
    cbn [fst snd].
  - split; [done|]. intros _. left. intros name rs [Hl Hrs].
    apply (lists.visited_lookup range _ _ _ Hall) in Hl.
    rewrite Forall_forall in Hpassed. specialize (Hpassed _ Hl). cbn in Hpassed.
    subst passed. unfold passedOver in Hpassed. by rewrite Hrs in Hpassed.
  - assert (Hl : Resources (RootModule s) !! name = Some rs).
    { apply (lists.visited_lookup range _ _ _ Hall). rewrite Heq. set_solver. }
    destruct (decision_cases rs Hnot)
      as [(resp & E & Hne & ->)|[(resp & E & He & ->)|(err & E & Herr & ->)]];
      split; try done.
    + intros e [= <-]. eauto 10.
    + intros _. right. eauto 10.
    + intros e [= <-]. eauto 10.
Qed.

(** X11. A default route table that is still there is found whatever
    order [range] takes, provided every other default route table of the
    state is answered as not found: the check returns "still exist.". *)
Theorem route_table_destroy_detects_remaining (s : State) name rs resp :
  VisitsEvery range →
  Resources (RootModule s) !! name = Some rs →
  isDefaultRouteTable rs = true →
  DescribeRouteTables (describeInput rs) = inl resp →
  RouteTables resp ≠ [] →
  (∀ name' rs', Resources (RootModule s) !! name' = Some rs' →
                isDefaultRouteTable rs' = true → name' ≠ name →
                answersNotFound DescribeRouteTables isAWSErr rs' = true) →
  fst (testAccCheckDefaultRouteTableDestroy range DescribeRouteTables isAWSErr s)
  = Some errStillExist.
Proof.
  intros Hall Hl Hrs Hresp Hne Hothers.
  unfold testAccCheckDefaultRouteTableDestroy. fold loop.
  destruct (routeTables_first (range (Resources (RootModule s))))
    as [[Hpassed _]|(before & name' & rs' & rest & Heq & _ & Hrs' & Hnot & ->)];
    cbn [fst snd].
  - apply (lists.visited_lookup range _ _ _ Hall) in Hl.
    rewrite Forall_forall in Hpassed. specialize (Hpassed _ Hl). cbn in Hpassed.
    subst passed. unfold passedOver, answersNotFound in Hpassed.
    by rewrite Hrs, Hresp in Hpassed.
  - assert (Hl' : Resources (RootModule s) !! name' = Some rs').
    { apply (lists.visited_lookup range _ _ _ Hall). rewrite Heq. set_solver. }
    destruct (decide (name' = name)) as [->|Hdiff].
    + assert (rs' = rs) as -> by congruence.
      subst decision. cbn. rewrite Hresp.
      destruct (RouteTables resp); [done|]. done.
    + subst gone. rewrite (Hothers name' rs' Hl' Hrs' Hdiff) in Hnot. done.
Qed.

(** The calls made are the first calls of a full round. *)
Lemma routeTables_calls_prefix entries :
  ∃ later, describeInputs entries = (loop entries).2 ++ later.
Proof.
  destruct (routeTables_first entries)
    as [[_ ->]|(before & name & rs & rest & -> & _ & Hrs & _ & ->)]; cbn [snd].
  - exists []. by rewrite app_nil_r.
  - exists (describeInputs rest).
    rewrite describeInputs_app, describeInputs_cons, Hrs, <- app_assoc. done.
Qed.

(** X12. [testAccCheckDefaultRouteTableDestroy] asks only for default
    route tables of the state, in the order it meets them and up to the
    one that decides: resources of another type are never asked for, and
    there are no more calls than default route tables. *)
Theorem route_table_destroy_calls (s : State) :
  VisitsEvery range →
  let out := testAccCheckDefaultRouteTableDestroy range DescribeRouteTables isAWSErr s in
  let tables := map_to_list (Resources (RootModule s)) in
  (∃ later, describeInputs (range (Resources (RootModule s))) = snd out ++ later)
  ∧ (length (snd out) ≤ length (describeInputs tables))%nat
  ∧ (∀ input, input ∈ snd out →
       ∃ name rs, Resources (RootModule s) !! name = Some rs
                  ∧ isDefaultRouteTable rs = true ∧ input = describeInput rs).
Proof.
  intros Hall out tables. subst out tables.
  unfold testAccCheckDefaultRouteTableDestroy. fold loop.
  destruct (routeTables_calls_prefix (range (Resources (RootModule s))))
    as [later Hpre].
  split_and!; [eauto| |].
  - rewrite <- (describeInputs_Permutation _ _ (Hall (Resources (RootModule s)))).
    rewrite Hpre, length_app. lia.
  - intros input Hin.
    assert (Hin' : input ∈ describeInputs (range (Resources (RootModule s))))
      by (rewrite Hpre; set_solver).
    apply describeInputs_elem in Hin' as (name & rs & Hl & Hrs & ->).
    apply (lists.visited_lookup range _ _ _ Hall) in Hl. eauto.
Qed.

End Destroy.

(** ** The import id *)

(** X13. [testAccAWSDefaultRouteTableImportStateIdFunc] fails exactly
    when the state has no resource under the given name, with the
    "Not found" error and an empty id.  For a resource of the state it
    returns the vpc_id attribute and no error (the empty id when the
    attribute is missing), so an id that is not empty is the vpc_id of the
    named resource. *)
Theorem import_state_id_is_vpc_id (resourceName : string) (s : State) :
  let out := testAccAWSDefaultRouteTableImportStateIdFunc resourceName s in
  let found := Resources (RootModule s) !! resourceName in
  (snd out ≠ None ↔ found = None)
  ∧ (found = None →
     out = ("", Some (fmt_Errorf "Not found: %s" [argString resourceName])))
  ∧ (∀ rs, found = Some rs →
       snd out = None
       ∧ (∀ v, Attributes (Primary rs) !! "vpc_id" = Some v → fst out = v)
       ∧ (Attributes (Primary rs) !! "vpc_id" = None → fst out = ""))
  ∧ (fst out ≠ "" →
     ∃ rs, found = Some rs ∧ Attributes (Primary rs) !! "vpc_id" = Some (fst out)).
Proof.
  intros out found. subst out found.
  unfold testAccAWSDefaultRouteTableImportStateIdFunc.
  destruct (Resources (RootModule s) !! resourceName) as [rs|]; cbn.
  - split_and!; [split; [by intros []|done]|done| |].
    + intros rs' [= <-]. split_and!; [done| |]; by intros; simplify_option_eq.
    + intros Hid. exists rs. split; [done|].
      by destruct (Attributes (Primary rs) !! "vpc_id").
  - by split_and!.
Qed.

(** ** The theorems at sample inputs *)

Lemma tablesForwards_all : VisitsEvery examples.tablesForwards.
Proof. intros m. reflexivity. Qed.

Lemma tablesBackwards_all : VisitsEvery examples.tablesBackwards.
Proof. intros m. unfold examples.tablesBackwards. apply reverse_Permutation. Qed.

(** The resources of the sample state, one by one. *)
Lemma twoTables_lookup name rs :
  Resources (RootModule examples.twoTables) !! name = Some rs →
  (name = "aws_default_route_table.a" ∧ rs = examples.tableA)
  ∨ (name = "aws_default_route_table.b" ∧ rs = examples.tableB)
  ∨ (name = "aws_vpc.v" ∧ rs = examples.vpc).
Proof.
  intros Hl. cbn in Hl.
  apply lookup_insert_Some in Hl as [[<- <-]|[_ Hl]]; [by left|].
  apply lookup_insert_Some in Hl as [[<- <-]|[_ Hl]]; [by right; left|].
  apply lookup_insert_Some in Hl as [[<- <-]|[_ Hl]]; [by right; right|].
  by rewrite lookup_empty in Hl.
Qed.

(** [rtb-a] is gone and met first, [rtb-b] is found next. *)
Lemma route_table_destroy_first_decisive_witness :
  testAccCheckDefaultRouteTableDestroy examples.tablesForwards
    examples.onlyTableBLeft examples.sampleIsAWSErr examples.twoTables
  = (Some errStillExist,
     [describeInput examples.tableA; describeInput examples.tableB]).
Proof.
  destruct (route_table_destroy_first_decisive examples.tablesForwards
              examples.onlyTableBLeft examples.sampleIsAWSErr examples.twoTables
              [("aws_vpc.v", examples.vpc);
               ("aws_default_route_table.a", examples.tableA)]
              "aws_default_route_table.b" examples.tableB [])
    as (Hcalls & Hfound & _).
  - vm_compute. reflexivity.
  - repeat constructor.
  - reflexivity.
  - reflexivity.
  - apply injective_projections; [|exact Hcalls].
    apply (Hfound _ eq_refl). discriminate.
Defined.

(** With both tables gone the check passes. *)
Lemma route_table_destroy_all_gone_witness :
  fst (testAccCheckDefaultRouteTableDestroy examples.tablesForwards
         examples.noTableLeft examples.sampleIsAWSErr examples.twoTables)
  = None.
Proof.
  apply (route_table_destroy_all_gone examples.tablesForwards examples.noTableLeft
           examples.sampleIsAWSErr examples.twoTables tablesForwards_all).
  intros name rs _ _. reflexivity.
Defined.

(** The error of the sample run comes from a table that is found. *)
Lemma route_table_destroy_sound_witness :
  ∃ name rs,
    (Resources (RootModule examples.twoTables) !! name = Some rs
     ∧ isDefaultRouteTable rs = true)
    ∧ ((∃ resp, examples.onlyTableBLeft (describeInput rs) = inl resp
                ∧ RouteTables resp ≠ [] ∧ errStillExist = errStillExist)
       ∨ (examples.onlyTableBLeft (describeInput rs) = inr errStillExist
          ∧ examples.sampleIsAWSErr errStillExist "InvalidRouteTableID.NotFound" ""
            = false)).
Proof.
  destruct (route_table_destroy_sound examples.tablesForwards
              examples.onlyTableBLeft examples.sampleIsAWSErr examples.twoTables
              tablesForwards_all) as [Herr _].
  apply Herr. vm_compute. reflexivity.
Defined.

(** [rtb-b] is found in the other order as well. *)
Lemma route_table_destroy_detects_remaining_witness :
  fst (testAccCheckDefaultRouteTableDestroy examples.tablesBackwards
         examples.onlyTableBLeft examples.sampleIsAWSErr examples.twoTables)
  = Some errStillExist.
Proof.
  apply (route_table_destroy_detects_remaining examples.tablesBackwards
           examples.onlyTableBLeft examples.sampleIsAWSErr examples.twoTables
           "aws_default_route_table.b" examples.tableB
           (mkDescribeRouteTablesOutput [mkRouteTable (Some "rtb-b") (Some "vpc-1")])
           tablesBackwards_all).
  - vm_compute. reflexivity.
  - reflexivity.
  - reflexivity.
  - discriminate.
  - intros name' rs' Hl Hrs Hne.
    destruct (twoTables_lookup _ _ Hl) as [[-> ->]|[[-> ->]|[-> ->]]];
      [reflexivity|done|discriminate].
Defined.

(** No more calls than default route tables. *)
Lemma route_table_destroy_calls_witness :
  (length (snd (testAccCheckDefaultRouteTableDestroy examples.tablesBackwards
                  examples.onlyTableBLeft examples.sampleIsAWSErr examples.twoTables))
   ≤ length (describeInputs
               (map_to_list (Resources (RootModule examples.twoTables)))))%nat.
Proof.
  destruct (route_table_destroy_calls examples.tablesBackwards
              examples.onlyTableBLeft examples.sampleIsAWSErr examples.twoTables
              tablesBackwards_all) as (_ & Hlen & _).
  exact Hlen.
Defined.

End route_table_spec.

(** ** The cluster functions together *)

Module elasticache_more.

Import schema spec facts elasticache elasticache_spec.
#[local] Open Scope list_scope.

#[local] Arguments schema.GetOk : simpl never.
#[local] Arguments schema.Get : simpl never.
#[local] Arguments schema.HasChange : simpl never.
#[local] Arguments schema.ForceNew : simpl never.
#[local] Arguments schema.Id : simpl never.

(** X14. No diff is rejected by both
    [CustomizeDiffValidateClusterAZMode] and
    [CustomizeDiffValidateClusterNumCacheNodes]: the first asks for
    num_cache_nodes set to 1, the second for another value. *)
Theorem az_mode_num_cache_nodes_exclusive d :
  ¬ (IsError (diff.result CustomizeDiffValidateClusterAZMode d)
     ∧ IsError (diff.result CustomizeDiffValidateClusterNumCacheNodes d)).
Proof.
  intros [Haz Hnum].
  destruct (decide_outcome _ _ _ _ (AZMode_cases d)) as (Haz' & _).
  destruct (decide_outcome _ _ _ _ (NumCacheNodes_cases d)) as (Hnum' & _).
  apply Haz' in Haz as [_ Hone].
  apply Hnum' in Hnum as (s & n & _ & _ & _ & Hn & _ & Hne).
  pose proof (IsSet_fun _ _ _ _ Hone Hn). congruence.
Qed.

(** X15. A diff that sets az_mode to "cross-az", engine to a value other
    than "memcached" and num_cache_nodes is always rejected, by exactly
    one of the two validators: by
    [CustomizeDiffValidateClusterAZMode] when num_cache_nodes is 1, by
    [CustomizeDiffValidateClusterNumCacheNodes] otherwise. *)
Theorem cross_az_needs_memcached d s n :
  IsSet d "az_mode" (vstring "cross-az") →
  IsSet d "engine" (vstring s) → s ≠ "memcached" →
  IsSet d "num_cache_nodes" (vint n) →
  let az := diff.result CustomizeDiffValidateClusterAZMode d in
  let nodes := diff.result CustomizeDiffValidateClusterNumCacheNodes d in
  (n = 1 → az = Val (Some errAZMode) ∧ nodes = Val None)
  ∧ (n ≠ 1 → az = Val None ∧ nodes = Val (Some errNumCacheNodes))
  ∧ (IsError az ∨ IsError nodes).
Proof.
  intros Haz He Hne Hn az nodes. subst az nodes.
  rewrite AZMode_result, NumCacheNodes_result. unfold ifSetString, ifSetInt.
  apply GetOk_IsSet in Haz, He, Hn. rewrite Haz, He, Hn. cbn.
  destruct (String.eqb_spec s "memcached") as [|_]; [done|].
  unfold IsError.
  destruct (Z.eqb_spec n 1) as [->|Hn1]; split_and!; try done; eauto.
Qed.

(** Flagging keys does not change what the function reads. *)
Lemma flagged_forces d keys :
  forcesNewNodeType d → forcesNewNodeType (mkDiff (id d) (fields d) keys).
Proof.
  intros (Hid & Hc & s & Hs & Hne). split_and!; [done..|].
  exists s. split; [|done]. by apply GetOk_IsSet; apply GetOk_IsSet in Hs.
Qed.

(** Whether the function forces re-creation can be told from the diff. *)
Lemma forcesNewNodeType_dec d : forcesNewNodeType d ∨ ¬ forcesNewNodeType d.
Proof. destruct (MemcachedNodeType_cases d) as [[? _]|[? _]]; eauto. Qed.

Lemma MemcachedNodeType_quiet d :
  ¬ forcesNewNodeType d → diff.after CustomizeDiffClusterMemcachedNodeType d = d.
Proof.
  intros Hno. unfold diff.after.
  destruct (MemcachedNodeType_cases d) as [[? _]|[_ (r & cs & -> & _)]]; done.
Qed.

(** X16. [CustomizeDiffClusterMemcachedNodeType] is idempotent: run again
    on the diff it left, it gives the same result and leaves that diff as
    it is. *)
Theorem memcached_node_type_idempotent d :
  let f := CustomizeDiffClusterMemcachedNodeType in
  diff.result f (diff.after f d) = diff.result f d
  ∧ diff.after f (diff.after f d) = diff.after f d.
Proof.
  intros f. subst f.
  destruct (forcesNewNodeType_dec d) as [Hf|Hno].
  - destruct (memcached_node_type_flags d Hf) as [Hr Ha].
    destruct (memcached_node_type_flags _ (flagged_forces d
                ({["node_type"]} ∪ forcedNewKeys d) Hf)) as [Hr' Ha'].
    rewrite Ha, Hr, Hr', Ha'. cbn. split; [done|]. f_equal. set_solver.
  - by rewrite !(MemcachedNodeType_quiet d Hno).
Qed.

(** X17. [CustomizeDiffClusterMemcachedNodeType] never changes the id or
    a field of the diff, and never takes a key off those flagged for
    re-creation: the keys flagged afterwards are those flagged before,
    with node_type added exactly when the function forces re-creation. *)
Theorem memcached_node_type_keeps_fields d :
  let d' := diff.after CustomizeDiffClusterMemcachedNodeType d in
  id d' = id d
  ∧ fields d' = fields d
  ∧ forcedNewKeys d ⊆ forcedNewKeys d'
  ∧ forcedNewKeys d' ⊆ {["node_type"]} ∪ forcedNewKeys d
  ∧ (∀ key, key ≠ "node_type" → key ∈ forcedNewKeys d' ↔ key ∈ forcedNewKeys d)
  ∧ ("node_type" ∈ forcedNewKeys d' ↔
     "node_type" ∈ forcedNewKeys d ∨ forcesNewNodeType d).
Proof.
  intros d'. subst d'.
  destruct (forcesNewNodeType_dec d) as [Hf|Hno].
  - destruct (memcached_node_type_flags d Hf) as [_ ->]. cbn.
    split_and!; [done|done|set_solver..].
  - rewrite (MemcachedNodeType_quiet d Hno). split_and!; [done|done|set_solver..].
Qed.

(** The calls of the validators, from the values read. *)
Lemma AZMode_trace d :
  diff.trace CustomizeDiffValidateClusterAZMode d =
  diff.CallGetOk "az_mode" ::
  (if bool_decide (GetOk d "az_mode" = (vstring "cross-az", true))
   then [diff.CallGetOk "num_cache_nodes"] else []).
Proof.
  unfold CustomizeDiffValidateClusterAZMode. step_diff.
  destruct (GetOk d "az_mode") as [v ok]. cbn.
  destruct ok; cbn; [|by rewrite bool_decide_eq_false_2].
  destruct v as [|b|n|s]; cbn; try by rewrite bool_decide_eq_false_2.
  unfold AZModeCrossAz. destruct (String.eqb_spec s "cross-az") as [->|Hne]; cbn.
  - rewrite bool_decide_eq_true_2 by done.
    destruct (GetOk d "num_cache_nodes") as [v' ok']. cbn.
    destruct ok'; cbn; [|done]. destruct v' as [|b|n|s']; cbn; try done.
    by destruct (n =? 1).
  - rewrite bool_decide_eq_false_2; [done|congruence].
Qed.

Lemma NumCacheNodes_trace d :
  diff.trace CustomizeDiffValidateClusterNumCacheNodes d =
  diff.CallGetOk "engine" ::
  (if snd (GetOk d "engine") then
     match fst (GetOk d "engine") with
     | vstring s =>
         if String.eqb s "memcached" then [] else [diff.CallGetOk "num_cache_nodes"]
     | _ => []
     end
   else []).
Proof.
  unfold CustomizeDiffValidateClusterNumCacheNodes. step_diff.
  destruct (GetOk d "engine") as [v ok]. cbn.
  destruct ok; cbn; [|done]. destruct v as [|b|n|s]; cbn; try done.
  unfold engineMemcached. destruct (String.eqb s "memcached"); cbn; [done|].
  destruct (GetOk d "num_cache_nodes") as [v' ok']. cbn.
  destruct ok'; cbn; [|done]. destruct v' as [|b|n|s']; cbn; try done.
  by destruct (n =? 1).
Qed.

Lemma SnapshotIdentifier_trace d :
  diff.trace CustomizeDiffValidateClusterMemcachedSnapshotIdentifier d =
  diff.CallGetOk "engine" ::
  (if snd (GetOk d "engine") then
     match fst (GetOk d "engine") with
     | vstring s =>
         if String.eqb s "redis" then [] else [diff.CallGetOk "final_snapshot_identifier"]
     | _ => []
     end
   else []).
Proof.
  unfold CustomizeDiffValidateClusterMemcachedSnapshotIdentifier. step_diff.
  destruct (GetOk d "engine") as [v ok]. cbn.
  destruct ok; cbn; [|done]. destruct v as [|b|n|s]; cbn; try done.
  unfold engineRedis. destruct (String.eqb s "redis"); cbn; [done|].
  by destruct (GetOk d "final_snapshot_identifier") as [? []].
Qed.

Lemma AutomaticFailover_trace d :
  diff.trace CustomizeDiffValidateReplicationGroupAutomaticFailover d =
  diff.CallGet "multi_az_enabled" ::
  (if bool_decide (Get d "multi_az_enabled" = vbool true)
   then [diff.CallGet "automatic_failover_enabled"] else []).
Proof.
  unfold CustomizeDiffValidateReplicationGroupAutomaticFailover. step_diff.
  destruct (Get d "multi_az_enabled") as [|m|n|s]; cbn; try done.
  destruct m; cbn; [|done].
  destruct (Get d "automatic_failover_enabled") as [|a|n|s]; cbn; try done.
  by destruct a.
Qed.

(** X18. The validators read their second key only when the first one
    calls for it: num_cache_nodes is read by
    [CustomizeDiffValidateClusterAZMode] exactly when az_mode is set to
    "cross-az" and by [CustomizeDiffValidateClusterNumCacheNodes] exactly
    when engine is set to another value than "memcached",
    final_snapshot_identifier exactly when engine is set to another value
    than "redis", and automatic_failover_enabled exactly when
    multi_az_enabled reads true.  Each validator starts with the read of
    its first key. *)
Theorem validators_short_circuit d :
  let reads m c := c ∈ diff.trace m d in
  let first m := head (diff.trace m d) in
  (first CustomizeDiffValidateClusterAZMode = Some (diff.CallGetOk "az_mode")
   ∧ (reads CustomizeDiffValidateClusterAZMode (diff.CallGetOk "num_cache_nodes")
      ↔ IsSet d "az_mode" (vstring "cross-az")))
  ∧ (first CustomizeDiffValidateClusterNumCacheNodes = Some (diff.CallGetOk "engine")
     ∧ (reads CustomizeDiffValidateClusterNumCacheNodes (diff.CallGetOk "num_cache_nodes")
        ↔ ∃ s, IsSet d "engine" (vstring s) ∧ s ≠ "memcached"))
  ∧ (first CustomizeDiffValidateClusterMemcachedSnapshotIdentifier
     = Some (diff.CallGetOk "engine")
     ∧ (reads CustomizeDiffValidateClusterMemcachedSnapshotIdentifier
          (diff.CallGetOk "final_snapshot_identifier")
        ↔ ∃ s, IsSet d "engine" (vstring s) ∧ s ≠ "redis"))
  ∧ (first CustomizeDiffValidateReplicationGroupAutomaticFailover
     = Some (diff.CallGet "multi_az_enabled")
     ∧ (reads CustomizeDiffValidateReplicationGroupAutomaticFailover
          (diff.CallGet "automatic_failover_enabled")
        ↔ Reads d "multi_az_enabled" (vbool true))).
Proof.
  intros reads first. subst reads first. cbn beta.
  rewrite AZMode_trace, NumCacheNodes_trace, SnapshotIdentifier_trace,
    AutomaticFailover_trace.
  rewrite <- GetOk_IsSet, <- Get_Reads by done.
  split_and!; try done.
  - case_bool_decide as E; [set_solver|]. split; [|done].
    intros [?|?%elem_of_nil]%elem_of_cons; done.
  - destruct (GetOk d "engine") as [v ok] eqn:E. cbn.
    assert (Hiff : ∀ s, IsSet d "engine" (vstring s) ↔ (v = vstring s ∧ ok = true)).
    { intros s. rewrite <- GetOk_IsSet, E. naive_solver. }
    setoid_rewrite Hiff.
    destruct ok; [|set_solver]. destruct v as [|b|n|s]; try set_solver.
    destruct (String.eqb_spec s "memcached") as [->|Hne]; [set_solver|].
    split; [eauto|set_solver].
  - destruct (GetOk d "engine") as [v ok] eqn:E. cbn.
    assert (Hiff : ∀ s, IsSet d "engine" (vstring s) ↔ (v = vstring s ∧ ok = true)).
    { intros s. rewrite <- GetOk_IsSet, E. naive_solver. }
    setoid_rewrite Hiff.
    destruct ok; [|set_solver]. destruct v as [|b|n|s]; try set_solver.
    destruct (String.eqb_spec s "redis") as [->|Hne]; [set_solver|].
    split; [eauto|set_solver].
  - case_bool_decide as E; [set_solver|]. split; [|done].
    intros [?|?%elem_of_nil]%elem_of_cons; done.
Qed.

Section TransitEncryption.

Variable normalizeEngineVersion : string → gversion.Version + error.
Variable cmp : string → string → Z.

Lemma TransitEncryption_trace d :
  diff.trace (CustomizeDiffValidateTransitEncryptionEnabled normalizeEngineVersion cmp) d =
  diff.CallGetOk "transit_encryption_enabled" ::
  (if bool_decide (GetOk d "transit_encryption_enabled" = (vbool true, true)) then
     diff.CallGet "engine" ::
     match Get d "engine" with
     | vstring e => if String.eqb e "redis" then [] else [diff.CallGetOk "engine_version"]
     | _ => []
     end
   else []).
Proof.
  unfold CustomizeDiffValidateTransitEncryptionEnabled. step_diff.
  destruct (GetOk d "transit_encryption_enabled") as [v ok]. cbn.
  destruct ok; cbn; [|by rewrite bool_decide_eq_false_2].
  destruct v as [|t|n|s]; cbn; try by rewrite bool_decide_eq_false_2.
  destruct t; cbn; [|by rewrite bool_decide_eq_false_2].
  rewrite bool_decide_eq_true_2 by done.
  destruct (Get d "engine") as [|b|n|e]; cbn; try done.
  unfold engineRedis. destruct (String.eqb e "redis"); cbn; [done|].
  destruct (GetOk d "engine_version") as [v ok']. cbn.
  destruct ok'; cbn; [|done]. destruct v as [|b|n|s]; cbn; try done.
  destruct (normalizeEngineVersion s) as [ver|err]; cbn; [|done].
  by destruct (gversion.LessThan _ _ _).
Qed.

(** X19. [CustomizeDiffValidateTransitEncryptionEnabled] reads engine
    exactly when transit_encryption_enabled is set and true, and
    engine_version exactly when, on top of that, engine reads a string
    other than "redis": with encryption off neither the engine nor the
    version is looked at. *)
Theorem transit_encryption_reads d :
  let reads c :=
    c ∈ diff.trace
          (CustomizeDiffValidateTransitEncryptionEnabled normalizeEngineVersion cmp) d in
  (reads (diff.CallGet "engine") ↔ IsSet d "transit_encryption_enabled" (vbool true))
  ∧ (reads (diff.CallGetOk "engine_version") ↔
     IsSet d "transit_encryption_enabled" (vbool true)
     ∧ ∃ e, Reads d "engine" (vstring e) ∧ e ≠ "redis").
Proof.
  intros reads. subst reads. cbn beta. rewrite TransitEncryption_trace.
  rewrite <- GetOk_IsSet.
  assert (Hiff : ∀ e, Reads d "engine" (vstring e) ↔ Get d "engine" = vstring e).
  { intros e. by rewrite Get_Reads. }
  setoid_rewrite Hiff.
  case_bool_decide as E; [|set_solver].
  destruct (Get d "engine") as [|b|n|e];
    try (split; [set_solver|]; split; [set_solver|]; by intros [_ (e' & ? & _)]).
  destruct (String.eqb_spec e "redis") as [->|Hne].
  - split; [set_solver|]. split; [set_solver|]. intros [_ (e' & [= <-] & ?)]. done.
  - split; [set_solver|]. split; [eauto|set_solver].
Qed.

End TransitEncryption.

(** ** The theorems at a sample input *)

(** Cross-az for a redis cluster of two nodes is turned down by the node
    count validator. *)
Lemma cross_az_needs_memcached_witness :
  diff.result CustomizeDiffValidateClusterAZMode examples.crossAzRedis = Val None
  ∧ diff.result CustomizeDiffValidateClusterNumCacheNodes examples.crossAzRedis
    = Val (Some errNumCacheNodes).
Proof.
  destruct (cross_az_needs_memcached examples.crossAzRedis "redis" 2)
    as (_ & Hmany & _); [is_set|is_set|discriminate|is_set|].
  apply Hmany. discriminate.
Defined.

End elasticache_more.
